(** * build/nodejs.go: the Node.js builder of fossa-cli

    A shallow embedding of [NodeJSBuilder] (Initialize, Build, Analyze,
    IsBuilt, IsModule, InferModule) and of the properties its design
    document states about it.

    Go values are modelled as follows.
    - [string] and [[]byte] are Rocq strings (sequences of bytes).
    - [error] is an inductive type; a nil error is [None].
    - The operating system (environment variables, file system, installed
      programs) is an abstract state [S] together with the record [Sys] of
      the calls the builder makes into it.  Running a subprocess may change
      the state; reading the environment or the file system does not.
    - A method is a computation in the monad [Go]: it threads the system
      state and the list of subprocesses invoked so far, and it either
      returns or panics.
    - The calls to [nodejsLogger] have no effect on any result and are
      left out. *)

From Stdlib Require Import String Ascii.
From stdpp Require Import base list strings.

Local Open Scope string_scope.

(** ** Data *)

(** Go's [error].  [errors_New] is [errors.New] as called in nodejs.go; every
    error value made elsewhere (os/exec, os, io/ioutil, doublestar) is a
    [Foreign] one. *)
Inductive error : Type :=
| errors_New (msg : string)
| Foreign (pkg msg : string).

(** [NodeModule] implements Dependency for NodeJSBuilder. *)
Record NodeModule : Type := mkNodeModule {
  Name : string;
  Version : string
}.

(** The interface [module.Dependency]. *)
Class Dependency (A : Type) : Type := {
  Fetcher : A → string;
  Package : A → string;
  Revision : A → string
}.

#[global] Instance NodeModule_Dependency : Dependency NodeModule := {|
  Fetcher := λ _, "npm";
  Package := λ m, Name m;
  Revision := λ m, Version m
|}.

(** [NodeJSBuilder] implements Builder for Nodejs. *)
Record NodeJSBuilder : Type := mkNodeJSBuilder {
  NodeCmd : string;
  NodeVersion : string;
  NpmCmd : string;
  NpmVersion : string;
  YarnCmd : string;
  YarnVersion : string
}.

(** The zero value [NodeJSBuilder{}]. *)
Definition NodeJSBuilder_zero : NodeJSBuilder := mkNodeJSBuilder "" "" "" "" "" "".

(** The zero value [NodeModule{}]. *)
Definition NodeModule_zero : NodeModule := mkNodeModule "" "".

Definition set_NodeCmd (b : NodeJSBuilder) (v : string) : NodeJSBuilder :=
  mkNodeJSBuilder v (NodeVersion b) (NpmCmd b) (NpmVersion b) (YarnCmd b) (YarnVersion b).
Definition set_NodeVersion (b : NodeJSBuilder) (v : string) : NodeJSBuilder :=
  mkNodeJSBuilder (NodeCmd b) v (NpmCmd b) (NpmVersion b) (YarnCmd b) (YarnVersion b).
Definition set_NpmCmd (b : NodeJSBuilder) (v : string) : NodeJSBuilder :=
  mkNodeJSBuilder (NodeCmd b) (NodeVersion b) v (NpmVersion b) (YarnCmd b) (YarnVersion b).
Definition set_NpmVersion (b : NodeJSBuilder) (v : string) : NodeJSBuilder :=
  mkNodeJSBuilder (NodeCmd b) (NodeVersion b) (NpmCmd b) v (YarnCmd b) (YarnVersion b).
Definition set_YarnCmd (b : NodeJSBuilder) (v : string) : NodeJSBuilder :=
  mkNodeJSBuilder (NodeCmd b) (NodeVersion b) (NpmCmd b) (NpmVersion b) v (YarnVersion b).
Definition set_YarnVersion (b : NodeJSBuilder) (v : string) : NodeJSBuilder :=
  mkNodeJSBuilder (NodeCmd b) (NodeVersion b) (NpmCmd b) (NpmVersion b) (YarnCmd b) v.

(** [module.Module], of which the builder reads the root directory only. *)
Record module_Module : Type := mkModule {
  Dir : string
}.

(** [exec.Cmd] as built by [exec.Command(name, arg...)] and a later
    assignment to [cmd.Dir]: the program name as given, the arguments after
    it, and the working directory (empty: the caller's). *)
Record exec_Cmd : Type := mkCmd {
  cmd_Path : string;
  cmd_Args : list string;
  cmd_Dir : string
}.

Definition exec_Command (name : string) (arg : list string) : exec_Cmd :=
  mkCmd name arg "".

Definition with_Dir (cmd : exec_Cmd) (dir : string) : exec_Cmd :=
  mkCmd (cmd_Path cmd) (cmd_Args cmd) dir.

#[global] Instance error_eq_dec : EqDecision error.
Proof. solve_decision. Defined.
#[global] Instance NodeModule_eq_dec : EqDecision NodeModule.
Proof. solve_decision. Defined.
#[global] Instance exec_Cmd_eq_dec : EqDecision exec_Cmd.
Proof. solve_decision. Defined.

(** ** strings.TrimSpace

    Go trims the runes for which [unicode.IsSpace] holds.  On the UTF-8
    bytes these are the six ASCII spaces, U+0085 and U+00A0 (two bytes, lead
    0xC2), and U+1680, U+2000..U+200A, U+2028, U+2029, U+202F, U+205F and
    U+3000 (three bytes). *)

Definition byte (c : ascii) : nat := nat_of_ascii c.

Definition asciiSpace (c : ascii) : bool :=
  let n := byte c in
  ((n =? 9) || (n =? 10) || (n =? 11) || (n =? 12) || (n =? 13) || (n =? 32))%nat.

Definition space2 (c1 c2 : ascii) : bool :=
  ((byte c1 =? 194) && ((byte c2 =? 133) || (byte c2 =? 160)))%nat.

Definition space3 (c1 c2 c3 : ascii) : bool :=
  let '(a, b, c) := (byte c1, byte c2, byte c3) in
  (((a =? 225) && (b =? 154) && (c =? 128))
   || ((a =? 226) && (b =? 128)
       && (((128 <=? c) && (c <=? 138)) || (c =? 168) || (c =? 169) || (c =? 175)))
   || ((a =? 226) && (b =? 129) && (c =? 159))
   || ((a =? 227) && (b =? 128) && (c =? 128)))%nat.

(** Drop the leading space runes. *)
Fixpoint TrimLeft (s : string) : string :=
  match s with
  | EmptyString => s
  | String c1 s1 =>
    if asciiSpace c1 then TrimLeft s1
    else match s1 with
         | EmptyString => s
         | String c2 s2 =>
           if space2 c1 c2 then TrimLeft s2
           else match s2 with
                | EmptyString => s
                | String c3 s3 => if space3 c1 c2 c3 then TrimLeft s3 else s
                end
         end
  end.

(** Drop the longest suffix made of space runes only. *)
Fixpoint TrimRight (s : string) : string :=
  match s with
  | EmptyString => EmptyString
  | String c rest =>
    if String.eqb (TrimLeft s) "" then EmptyString else String c (TrimRight rest)
  end.

Definition strings_TrimSpace (s : string) : string := TrimRight (TrimLeft s).

(** ** The system the builder runs on *)

Record Sys (S : Type) : Type := mkSys {
  (** [os.Getenv(key)] *)
  os_Getenv : string → S → string;
  (** [cmd.Output()]: the standard output, the error, and the state the
      subprocess leaves behind. *)
  cmd_Output : exec_Cmd → S → (string * option error) * S;
  (** [os.Stat(name)], of which the builder reads the error only. *)
  os_Stat : string → S → option error;
  (** [doublestar.Glob(pattern)] *)
  doublestar_Glob : string → S → list string * option error;
  (** [ioutil.ReadFile(filename)] *)
  ioutil_ReadFile : string → S → string * option error;
  (** [json.Unmarshal(data, &v)] for [v] a NodeModule: the value left in
      [v], and the error. *)
  json_Unmarshal : string → NodeModule → NodeModule * option error;
  (** [filepath.Join(elem...)] *)
  filepath_Join : list string → string
}.

Arguments os_Getenv {S} _ _ _.
Arguments cmd_Output {S} _ _ _.
Arguments os_Stat {S} _ _ _.
Arguments doublestar_Glob {S} _ _ _.
Arguments ioutil_ReadFile {S} _ _ _.
Arguments json_Unmarshal {S} _ _ _.
Arguments filepath_Join {S} _ _.

(** ** The monad of Go computations *)

(** The state of a run: the system, and the subprocesses the program has
    asked for so far (calls of [cmd.Output()]), oldest first. *)
Record World (S : Type) : Type := mkWorld {
  os : S;
  invoked : list exec_Cmd
}.
Arguments mkWorld {S} _ _.
Arguments os {S} _.
Arguments invoked {S} _.

Inductive result (A : Type) : Type :=
| Ret (a : A)
| Panic (msg : string).
Arguments Ret {A} _.
Arguments Panic {A} _.

Definition Go (S A : Type) : Type := World S → result A * World S.

Definition go_ret {S A} (a : A) : Go S A := λ w, (Ret a, w).

Definition go_bind {S A B} (m : Go S A) (k : A → Go S B) : Go S B :=
  λ w, match m w with
       | (Ret a, w') => k a w'
       | (Panic msg, w') => (Panic msg, w')
       end.

Definition go_panic {S A} (msg : string) : Go S A := λ w, (Panic msg, w).

#[global] Instance Go_ret {S} : MRet (Go S) := @go_ret S.
#[global] Instance Go_bind {S} : MBind (Go S) := λ A B k m, go_bind m k.

Section Builder.
Context {S : Type} (sys : Sys S).

(** *** System calls *)

Definition Getenv (key : string) : Go S string :=
  λ w, (Ret (os_Getenv sys key (os w)), w).

(** [cmd.Output()]: the subprocess is recorded, then run. *)
Definition Output (cmd : exec_Cmd) : Go S (string * option error) :=
  λ w, let '(r, s') := cmd_Output sys cmd (os w) in
       (Ret r, mkWorld s' (invoked w ++ [cmd])).

Definition Stat (name : string) : Go S (option error) :=
  λ w, (Ret (os_Stat sys name (os w)), w).

Definition Glob (pattern : string) : Go S (list string * option error) :=
  λ w, (Ret (doublestar_Glob sys pattern (os w)), w).

(** [b[0]] on a byte slice. *)
Definition index0 (b : string) : Go S ascii :=
  match b with
  | EmptyString => go_panic "runtime error: index out of range [0] with length 0"
  | String c _ => go_ret c
  end.

(** [s[1:]] on a string. *)
Definition slice1 (s : string) : Go S string :=
  match s with
  | EmptyString => go_panic "runtime error: slice bounds out of range [1:0]"
  | String _ r => go_ret r
  end.

(** *** Initialize *)

(** The loop over [nodeCmds], from index [i] on: the argument is
    [nodeCmds[i:]].  [inl err] is the [return err] inside the loop, [inr b]
    is the builder at the [break]. *)
Fixpoint nodeLoop (nodeCmds : list string) (builder : NodeJSBuilder)
  : Go S (error + NodeJSBuilder) :=
  match nodeCmds with
  | [] => go_ret (inl (errors_New "could not find Nodejs binary (try setting $NODE_BINARY)"))
  | c :: rest =>
    if String.eqb c "" then nodeLoop rest builder
    else
      '(nodeVersionOutput, err) ← Output (exec_Command c ["-v"]);
      match err with
      | None =>
        b0 ← index0 nodeVersionOutput;
        if Ascii.eqb b0 "v"%char then
          v ← slice1 (strings_TrimSpace nodeVersionOutput);
          go_ret (inr (set_NodeCmd (set_NodeVersion builder v) c))
        else nodeLoop rest builder
      | Some _ => nodeLoop rest builder
      end
  end.

(** The version a package manager's [-v] output yields, if any:
    [err == nil && len(out) >= 5]. *)
Definition versionOf (r : string * option error) : option string :=
  match r with
  | (out, None) => if (5 <=? String.length out)%nat then Some (strings_TrimSpace out) else None
  | (_, Some _) => None
  end.

(** The part of Initialize after the loop: the npm and Yarn context
    variables, and the final check. *)
Definition managers (builder : NodeJSBuilder) : Go S (NodeJSBuilder * option error) :=
  npm ← Getenv "NPM_BINARY";
  let builder := set_NpmCmd builder npm in
  let builder := if String.eqb (NpmCmd builder) "" then set_NpmCmd builder "npm" else builder in
  npmVersion ← Output (exec_Command (NpmCmd builder) ["-v"]);
  let builder := match versionOf npmVersion with
                 | Some v => set_NpmVersion builder v
                 | None => builder
                 end in
  yarn ← Getenv "YARN_BINARY";
  let builder := set_YarnCmd builder yarn in
  let builder := if String.eqb (YarnCmd builder) "" then set_YarnCmd builder "yarn" else builder in
  yarnVersion ← Output (exec_Command (YarnCmd builder) ["-v"]);
  let builder := match versionOf yarnVersion with
                 | Some v => set_YarnVersion builder v
                 | None => builder
                 end in
  if (String.eqb (NpmCmd builder) "" || String.eqb (NpmVersion builder) "")
     && (String.eqb (YarnCmd builder) "" || String.eqb (YarnVersion builder) "")
  then go_ret (builder, Some (errors_New
         "could not find NPM binary or Yarn binary (try setting $NPM_BINARY or $YARN_BINARY)"))
  else go_ret (builder, None).

(** Initialize collects environment data for Nodejs builds.  The builder
    is a pointer receiver: the value returned with the error is the
    builder as the call leaves it. *)
Definition Initialize (builder : NodeJSBuilder) : Go S (NodeJSBuilder * option error) :=
  env ← Getenv "NODE_BINARY";
  r ← nodeLoop [env; "node"; "nodejs"] builder;
  match r with
  | inl e => go_ret (builder, Some e)
  | inr builder => managers builder
  end.

(** *** Build *)

Definition rmCmd (m : module_Module) : exec_Cmd :=
  with_Dir (exec_Command "rm" ["-rf"; "node_modules"]) (Dir m).

Definition yarnInstall (builder : NodeJSBuilder) (m : module_Module) : exec_Cmd :=
  with_Dir (exec_Command (YarnCmd builder) ["install"; "--production"; "--frozen-lockfile"]) (Dir m).

Definition npmInstall (builder : NodeJSBuilder) (m : module_Module) : exec_Cmd :=
  with_Dir (exec_Command (NpmCmd builder) ["install"; "--production"]) (Dir m).

Definition errYarnMissing : error :=
  errors_New "Yarn lockfile found but could not find Yarn binary (try setting $YARN_BINARY)".

(** The part of Build after the [if force] block. *)
Definition install (builder : NodeJSBuilder) (m : module_Module) : Go S (option error) :=
  lock ← Stat (filepath_Join sys [Dir m; "yarn.lock"]);
  match lock with
  | None =>
    if String.eqb (YarnCmd builder) "" then go_ret (Some errYarnMissing)
    else
      '(_, err) ← Output (yarnInstall builder m);
      go_ret err
  | Some _ =>
    '(_, err) ← Output (npmInstall builder m);
    go_ret err
  end.

Definition Build (builder : NodeJSBuilder) (m : module_Module) (force : bool)
  : Go S (option error) :=
  if force then
    '(_, err) ← Output (rmCmd m);
    match err with
    | Some e => go_ret (Some e)
    | None => install builder m
    end
  else install builder m.

(** *** IsBuilt, IsModule, InferModule *)

Definition IsBuilt (builder : NodeJSBuilder) (m : module_Module) (_ : bool)
  : Go S (bool * option error) :=
  let nodeModulesPath := filepath_Join sys [Dir m; "node_modules"] in
  st ← Stat nodeModulesPath;
  match st with
  | None => go_ret (true, None)
  | Some _ => go_ret (false, None)
  end.

Definition IsModule (builder : NodeJSBuilder) (target : string) : Go S (bool * option error) :=
  go_ret (false, Some (errors_New "IsModule is not implemented for NodeJSBuilder")).

Definition InferModule (builder : NodeJSBuilder) (target : string)
  : Go S (module_Module * option error) :=
  go_ret (mkModule "", Some (errors_New "InferModule is not implemented for NodeJSBuilder")).

(** *** Analyze *)

(** One goroutine of Analyze, [go func(modulePath, index, wg)]: not yet
    run, between [ioutil.ReadFile] and [json.Unmarshal], or past its
    deferred [wg.Done()]. *)
Inductive goroutine : Type :=
| Spawned (modulePath : string)
| Read (dependencyManifest : string)
| Finished.

(** The memory the goroutines share with Analyze. *)
Record pool : Type := mkPool {
  goroutines : list goroutine;
  dependencies : list NodeModule
}.

Definition is_Finished (g : goroutine) : bool :=
  match g with Finished => true | _ => false end.

(** The scheduler lets goroutine [index] take its next step.  A failed
    read returns early and leaves the slot as it is; [json.Unmarshal]
    writes through [&dependencies[index]] and its error is dropped. *)
Definition step (s : S) (h : pool) (index : nat) : pool :=
  match goroutines h !! index with
  | Some (Spawned modulePath) =>
    match ioutil_ReadFile sys modulePath s with
    | (dependencyManifest, None) =>
      mkPool (<[index := Read dependencyManifest]> (goroutines h)) (dependencies h)
    | (_, Some _) =>
      mkPool (<[index := Finished]> (goroutines h)) (dependencies h)
    end
  | Some (Read dependencyManifest) =>
    mkPool (<[index := Finished]> (goroutines h))
           (alter (λ v, (json_Unmarshal sys dependencyManifest v).1) index (dependencies h))
  | Some Finished | None => h
  end.

(** A schedule names the goroutine that moves next, step after step. *)
Definition run (s : S) (schedule : list nat) (h : pool) : pool :=
  foldl (step s) h schedule.

(** [make([]NodeModule, n)], and one goroutine per path. *)
Definition spawn (nodeModules : list string) : pool :=
  mkPool (Spawned <$> nodeModules) (replicate (length nodeModules) NodeModule_zero).

(** [wg.Wait()] returns once the counter is zero. *)
Definition waited (h : pool) : bool := forallb is_Finished (goroutines h).

(** The loop [deps = append(deps, dependencies[i])]. *)
Definition collect (dependencies : list NodeModule) : list NodeModule :=
  foldl (λ (deps : list NodeModule) d, (deps ++ [d])%list) [] dependencies.

Definition globPattern (m : module_Module) : string :=
  filepath_Join sys [Dir m; "**"; "node_modules"; "*"; "package.json"].

(** Analyze under a schedule of its goroutines.  [None] stands for a
    call still blocked in [wg.Wait()] when the schedule ends. *)
Definition Analyze (builder : NodeJSBuilder) (m : module_Module) (_ : bool)
    (schedule : list nat) : Go S (option (list NodeModule * option error)) :=
  '(nodeModules, err) ← Glob (globPattern m);
  match err with
  | Some e => go_ret (Some ([], Some e))
  | None =>
    λ w, let h := run (os w) schedule (spawn nodeModules) in
         if waited h then (Ret (Some (collect (dependencies h), None)), w)
         else (Ret None, w)
  end.

End Builder.

(** ** Notions the design document uses *)

Section Notions.
Context {S : Type} (sys : Sys S).

(** What the goroutine for one path leaves in its slot: the zero value
    when the manifest cannot be read, and otherwise what [json.Unmarshal]
    made of the zero value. *)
Definition manifestEntry (s : S) (modulePath : string) : NodeModule :=
  match ioutil_ReadFile sys modulePath s with
  | (dependencyManifest, None) => (json_Unmarshal sys dependencyManifest NodeModule_zero).1
  | (_, Some _) => NodeModule_zero
  end.

(** A manifest that is read and parsed without error. *)
Definition validManifest (s : S) (modulePath : string) : bool :=
  match ioutil_ReadFile sys modulePath s with
  | (dependencyManifest, None) =>
    match (json_Unmarshal sys dependencyManifest NodeModule_zero).2 with
    | None => true
    | Some _ => false
    end
  | (_, Some _) => false
  end.

(** Every goroutine below [n] gets the two steps it may need. *)
Definition fair (n : nat) (schedule : list nat) : bool :=
  forallb (λ i, (2 <=? count_occ Nat.eq_dec schedule i)%nat) (seq 0 n).

(** The version query [<cmd> -v]. *)
Definition versionProbe (c : string) : exec_Cmd := exec_Command c ["-v"].

(** The runtime candidates of Initialize, in priority order. *)
Definition nodeCandidates (s : S) : list string :=
  [os_Getenv sys "NODE_BINARY" s; "node"; "nodejs"].

(** A candidate whose version query succeeds with output beginning with
    the marker [v]. *)
Definition probeAccepts (s : S) (c : string) : bool :=
  negb (String.eqb c "") &&
  match (cmd_Output sys (versionProbe c) s).1 with
  | (out, None) => match out with String b0 _ => Ascii.eqb b0 "v"%char | EmptyString => false end
  | (_, Some _) => false
  end.

(** A candidate whose version query succeeds and prints nothing. *)
Definition probeSilent (s : S) (c : string) : bool :=
  negb (String.eqb c "") &&
  match (cmd_Output sys (versionProbe c) s).1 with
  | (out, None) => match out with EmptyString => true | String _ _ => false end
  | (_, Some _) => false
  end.

(** The command of a package manager: the override, else the default. *)
Definition managerCmd (s : S) (key default : string) : string :=
  if String.eqb (os_Getenv sys key s) "" then default else os_Getenv sys key s.

(** A package manager resolves a version: its query succeeds with at
    least five bytes of output, not all of them white space. *)
Definition managerResolves (s : S) (key default : string) : bool :=
  match versionOf (cmd_Output sys (versionProbe (managerCmd s key default)) s).1 with
  | Some v => negb (String.eqb v "")
  | None => false
  end.

(** Version queries that leave the system as it is. *)
Definition probesPure : Prop :=
  ∀ c s, (cmd_Output sys (versionProbe c) s).2 = s.

(** An entry exists at a path when [os.Stat] reports no error for it. *)
Definition entryExists (s : S) (name : string) : bool :=
  match os_Stat sys name s with None => true | Some _ => false end.

(** Where a goroutine stands with respect to the path it was given and
    the slot it owns. *)
Definition consistent (s : S) (modulePath : string) (g : goroutine) (d : NodeModule) : Prop :=
  match g with
  | Spawned p => p = modulePath ∧ d = NodeModule_zero
  | Read data => ioutil_ReadFile sys modulePath s = (data, None) ∧ d = NodeModule_zero
  | Finished => d = manifestEntry s modulePath
  end.

(** The pool has one goroutine and one slot per path, and each goroutine
    is consistent with its path and slot. *)
Definition invariant (s : S) (nodeModules : list string) (h : pool) : Prop :=
  length (goroutines h) = length nodeModules
  ∧ length (dependencies h) = length nodeModules
  ∧ ∀ i p g d, nodeModules !! i = Some p → goroutines h !! i = Some g →
               dependencies h !! i = Some d → consistent s p g d.

(** The steps a goroutine may still take. *)
Definition stepsLeft (g : goroutine) : nat :=
  match g with Spawned _ => 2 | Read _ => 1 | Finished => 0 end.

Definition stepsLeftAt (h : pool) (i : nat) : nat :=
  from_option stepsLeft 0 (goroutines h !! i).

(** The two errors Initialize makes. *)
Definition errNoNode : error :=
  errors_New "could not find Nodejs binary (try setting $NODE_BINARY)".

Definition errNoManager : error :=
  errors_New "could not find NPM binary or Yarn binary (try setting $NPM_BINARY or $YARN_BINARY)".

(** A version query of a named program, run in the caller's directory. *)
Definition isVersionProbe (cmd : exec_Cmd) : Prop :=
  cmd_Path cmd ≠ "" ∧ cmd_Args cmd = ["-v"] ∧ cmd_Dir cmd = "".

(** The steps a goroutine takes before it is finished: a read that fails
    ends it at once, a read that succeeds is followed by the decoding. *)
Definition stepsNeeded (s : S) (g : goroutine) : nat :=
  match g with
  | Spawned p => match (ioutil_ReadFile sys p s).2 with None => 2 | Some _ => 1 end
  | Read _ => 1
  | Finished => 0
  end.

Definition stepsNeededAt (s : S) (h : pool) (i : nat) : nat :=
  from_option (stepsNeeded s) 0 (goroutines h !! i).

(** What the loop over the candidates yields for another builder: the
    same exit, with the runtime fields set on that builder. *)
Definition rebuild (builder : NodeJSBuilder) (r : result (error + NodeJSBuilder))
  : result (error + NodeJSBuilder) :=
  match r with
  | Ret (inr b1) => Ret (inr (set_NodeCmd (set_NodeVersion builder (NodeVersion b1)) (NodeCmd b1)))
  | _ => r
  end.

End Notions.

(** Whether a message contains a phrase. *)
Definition mentions (phrase msg : string) : bool :=
  match String.index 0 phrase msg with Some _ => true | None => false end.

(** ** A small concrete system

    Used to run the builder on explicit inputs: an environment, the
    installed programs with what their version query prints, and a flat
    file system. *)

Module Host.

Record state : Type := mkState {
  environ : list (string * string);
  (** program name, and the output of [<name> -v] *)
  programs : list (string * string);
  (** path, and the contents of a file ([None]: a directory) *)
  entries : list (string * option string)
}.

Fixpoint assoc {A : Type} (k : string) (l : list (string * A)) : option A :=
  match l with
  | [] => None
  | (k', v) :: l' => if String.eqb k k' then Some v else assoc k l'
  end.

(** The path components between slashes. *)
Fixpoint components (acc : string) (p : string) : list string :=
  match p with
  | EmptyString => [acc]
  | String c p' =>
    if Ascii.eqb c "/"%char then acc :: components "" p'
    else components (acc ++ String c "") p'
  end.

Fixpoint join (elem : list string) : string :=
  match elem with
  | [] => ""
  | [e] => e
  | e :: rest => e ++ "/" ++ join rest
  end.

(** [filepath.Join] on elements that are already clean: the empty ones
    are dropped, the others joined by a slash. *)
Definition Join (elem : list string) : string :=
  join (filter (λ e, e ≠ "") elem).

Fixpoint isPrefix (l1 l2 : list string) : bool :=
  match l1, l2 with
  | [], _ => true
  | x :: l1', y :: l2' => String.eqb x y && isPrefix l1' l2'
  | _ :: _, [] => false
  end.

(** Whether a path matches [<root>/**/node_modules/*/package.json]. *)
Definition isManifest (root : list string) (p : string) : bool :=
  let cs := components "" p in
  isPrefix root cs && (length root + 3 <=? length cs)%nat &&
  match rev cs with
  | f :: _ :: d :: _ => String.eqb f "package.json" && String.eqb d "node_modules"
  | _ => false
  end.

Definition hasMeta (p : string) : bool :=
  match String.index 0 "[" p with Some _ => true | None => false end.

(** [doublestar.Glob] on the one pattern Analyze builds; a bracket in the
    root is a malformed character class. *)
Definition Glob (pattern : string) (s : state) : list string * option error :=
  if hasMeta pattern then ([], Some (Foreign "doublestar" "syntax error in pattern"))
  else
    let cs := components "" pattern in
    let root := take (length cs - 4) cs in
    (filter (λ p, isManifest root p = true) (fst <$> entries s), None).

Definition ReadFile (name : string) (s : state) : string * option error :=
  match assoc name (entries s) with
  | Some (Some data) => (data, None)
  | Some None => ("", Some (Foreign "os" "is a directory"))
  | None => ("", Some (Foreign "os" "no such file or directory"))
  end.

Definition Stat (name : string) (s : state) : option error :=
  match assoc name (entries s) with
  | Some _ => None
  | None => Some (Foreign "os" "no such file or directory")
  end.

Definition Getenv (key : string) (s : state) : string :=
  default "" (assoc key (environ s)).

(** [rm -rf node_modules] in [dir]. *)
Definition remove (dir : string) (s : state) : state :=
  let target := Join [dir; "node_modules"] in
  mkState (environ s) (programs s)
    (filter (λ e, isPrefix (components "" target) (components "" e.1) = false) (entries s)).

Definition Output (cmd : exec_Cmd) (s : state) : (string * option error) * state :=
  match assoc (cmd_Path cmd) (programs s) with
  | None => (("", Some (Foreign "exec" "executable file not found in $PATH")), s)
  | Some banner =>
    if decide (cmd_Args cmd = ["-v"]) then ((banner, None), s)
    else if decide (cmd_Path cmd = "rm" ∧ cmd_Args cmd = ["-rf"; "node_modules"])
    then (("", None), remove (cmd_Dir cmd) s)
    else (("", None), s)
  end.

Definition quote : string := String "034"%char "".

(** Read up to the next double quote. *)
Fixpoint untilQuote (acc : string) (s : string) : option (string * string) :=
  match s with
  | EmptyString => None
  | String c s' =>
    if Ascii.eqb c "034"%char then Some (acc, s')
    else untilQuote (acc ++ String c "") s'
  end.

Definition expect (p : string) (s : string) : option string :=
  if String.prefix p s then Some (String.substring (String.length p) (String.length s - String.length p) s)
  else None.

(** [json.Unmarshal] on manifests of the one shape
    [{"name":"N","version":"V"}]; any other input is taken for a syntax
    error, which leaves the target as it is. *)
Definition Unmarshal (data : string) (v : NodeModule) : NodeModule * option error :=
  let parsed :=
    s1 ← expect ("{" ++ quote ++ "name" ++ quote ++ ":" ++ quote) data;
    '(n, s2) ← untilQuote "" s1;
    s3 ← expect ("," ++ quote ++ "version" ++ quote ++ ":" ++ quote) s2;
    '(ver, s4) ← untilQuote "" s3;
    if String.eqb s4 "}" then Some (mkNodeModule n ver) else None in
  match parsed with
  | Some nm => (nm, None)
  | None => (v, Some (Foreign "json" "invalid character"))
  end.

Definition sys : Sys state :=
  mkSys state Getenv Output Stat Glob ReadFile Unmarshal Join.

Definition manifest (n ver : string) : string :=
  "{" ++ quote ++ "name" ++ quote ++ ":" ++ quote ++ n ++ quote
  ++ "," ++ quote ++ "version" ++ quote ++ ":" ++ quote ++ ver ++ quote ++ "}".

(** The project of the design document's example: lodash installed with
    a good manifest, left-pad with a broken one, and a Yarn lockfile. *)
Definition project : list (string * option string) :=
  [ ("app", None);
    ("app/package.json", Some (manifest "app" "1.0.0"));
    ("app/yarn.lock", Some "# yarn lockfile v1");
    ("app/node_modules", None);
    ("app/node_modules/lodash", None);
    ("app/node_modules/lodash/package.json", Some (manifest "lodash" "4.17.0"));
    ("app/node_modules/left-pad", None);
    ("app/node_modules/left-pad/package.json", Some "{not json") ].

Definition newline : string := String "010"%char "".

(** Node and npm installed, Yarn not. *)
Definition npmOnly : state :=
  mkState [] [("node", "v8.11.1" ++ newline); ("npm", "5.6.0" ++ newline); ("rm", "")] project.

(** A [node] that answers its version query with nothing, next to a
    working [nodejs]. *)
Definition silentNode : state :=
  mkState [] [("node", ""); ("nodejs", "v8.11.1" ++ newline); ("npm", "5.6.0" ++ newline)] project.

(** A [node] that answers its version query with nothing, and no other
    tool. *)
Definition silentNodeOnly : state :=
  mkState [] [("node", "")] project.

(** Node overridden through the environment; no [rm] on the path. *)
Definition overridden : state :=
  mkState [("NODE_BINARY", "/opt/node/bin/node")]
    [("/opt/node/bin/node", "v10.0.0" ++ newline); ("node", "v8.11.1" ++ newline);
     ("yarn", "1.22.0" ++ newline)] project.

Definition app : module_Module := mkModule "app".

Definition start (s : state) : World state := mkWorld s [].

End Host.

(** ** Properties *)

Ltac go_unfold :=
  unfold mbind, Go_bind, go_bind, mret, Go_ret, go_ret, go_panic,
    Getenv, Output, Stat, Glob in *.

Local Open Scope list_scope.
Local Open Scope nat_scope.

Section Properties.
Context {S : Type} (sys : Sys S).
Implicit Types (builder : NodeJSBuilder) (m : module_Module) (w : World S).

(** *** IsModule and InferModule *)

(** C9: for every target, IsModule returns false with a "not implemented"
    error and InferModule returns the zero Module with a "not implemented"
    error; the error is never nil. *)
Theorem IsModule_InferModule_not_implemented builder (target : string) w :
  (∃ msg, IsModule builder target w = (Ret (false, Some (errors_New msg)), w)
          ∧ mentions "not implemented" msg = true)
  ∧ (∃ msg, InferModule builder target w = (Ret (mkModule "", Some (errors_New msg)), w)
            ∧ mentions "not implemented" msg = true).
Proof.
  split; eexists; (split; [reflexivity | vm_compute; reflexivity]).
Qed.

(** *** IsBuilt *)

(** C6: IsBuilt always returns, without error and without touching the
    system, and its answer is true exactly when an entry named
    node_modules exists at the module root; nothing else is looked at. *)
Theorem IsBuilt_iff_node_modules_exists builder m (flag : bool) w :
  ∃ built, IsBuilt sys builder m flag w = (Ret (built, None), w)
           ∧ (built = true ↔
              entryExists sys (os w) (filepath_Join sys [Dir m; "node_modules"]) = true).
Proof.
  unfold IsBuilt, entryExists. go_unfold.
  destruct (os_Stat sys _ (os w)); eexists; (split; [reflexivity | done]).
Qed.

(** *** Build *)

(** C4: with force=true the first subprocess of Build is the recursive
    deletion [rm -rf node_modules] run in the module root; when it fails
    Build returns its error and asks for nothing else, and otherwise at most
    one install follows it: the frozen-lockfile Yarn install or the npm
    production install, in the module root as well. *)
Theorem Build_force_deletes_first builder m w :
  ∃ r w' rest,
    Build sys builder m true w = (Ret r, w')
    ∧ invoked w' = invoked w ++ mkCmd "rm" ["-rf"; "node_modules"] (Dir m) :: rest
    ∧ match (cmd_Output sys (mkCmd "rm" ["-rf"; "node_modules"] (Dir m)) (os w)).1.2 with
      | Some e => r = Some e ∧ rest = []
      | None =>
        rest = []
        ∨ rest = [mkCmd (YarnCmd builder) ["install"; "--production"; "--frozen-lockfile"]
                        (Dir m)]
        ∨ rest = [mkCmd (NpmCmd builder) ["install"; "--production"] (Dir m)]
      end.
Proof.
  change (mkCmd "rm" ["-rf"; "node_modules"] (Dir m)) with (rmCmd m).
  change (mkCmd (YarnCmd builder) ["install"; "--production"; "--frozen-lockfile"] (Dir m))
    with (yarnInstall builder m).
  change (mkCmd (NpmCmd builder) ["install"; "--production"] (Dir m))
    with (npmInstall builder m).
  unfold Build, install. go_unfold.
  destruct (cmd_Output sys (rmCmd m) (os w)) as [[out [e|]] s1]; simpl.
  - by exists (Some e), (mkWorld s1 (invoked w ++ [rmCmd m])), [].
  - destruct (os_Stat sys _ s1); simpl.
    + destruct (cmd_Output sys (npmInstall builder m) s1) as [[o2 e2] s2]; simpl.
      eexists _, _, [npmInstall builder m]. rewrite <- app_assoc. simpl. eauto.
    + destruct (String.eqb (YarnCmd builder) "").
      * eexists _, _, []. eauto.
      * simpl. destruct (cmd_Output sys (yarnInstall builder m) s1) as [[o2 e2] s2]; simpl.
        eexists _, _, [yarnInstall builder m]. rewrite <- app_assoc. simpl. eauto.
Qed.

(** *** The goroutines of Analyze *)

Lemma step_lengths s h i :
  length (goroutines (step sys s h i)) = length (goroutines h)
  ∧ length (dependencies (step sys s h i)) = length (dependencies h).
Proof.
  unfold step. destruct (goroutines h !! i) as [[p|data|]|]; [| |done|done].
  - destruct (ioutil_ReadFile sys p s) as [data [e|]]; simpl;
      by rewrite length_insert.
  - simpl. by rewrite length_insert, length_alter.
Qed.

Lemma invariant_spawn s nodeModules : invariant sys s nodeModules (spawn nodeModules).
Proof.
  unfold invariant, spawn; simpl.
  rewrite length_fmap, length_replicate. split; [done | split; [done |]].
  intros i p g d Hp Hg Hd.
  rewrite list_lookup_fmap, Hp in Hg. injection Hg as <-.
  apply lookup_replicate in Hd as [-> _]. done.
Qed.

Lemma invariant_step s nodeModules h i :
  invariant sys s nodeModules h → invariant sys s nodeModules (step sys s h i).
Proof.
  intros (Hlg & Hld & Hc).
  destruct (step_lengths s h i) as [Hg' Hd'].
  split; [congruence | split; [congruence |]].
  intros j p g d Hp Hg Hd. revert Hg Hd. unfold step.
  destruct (goroutines h !! i) as [gi|] eqn:Hi; [| by eauto].
  assert (Hlt : i < length (goroutines h)) by (by eapply lookup_lt_Some).
  destruct (decide (i = j)) as [<- | Hne].
  - destruct (lookup_lt_is_Some_2 (dependencies h) i) as [di Hdi]; [lia |].
    specialize (Hc i p gi di Hp Hi Hdi).
    destruct gi as [p'|data|]; simpl in Hc.
    + destruct Hc as [-> ->].
      destruct (ioutil_ReadFile sys p s) as [data [e|]] eqn:Hr; simpl;
        rewrite list_lookup_insert_eq by done; intros [= <-] Hd;
        rewrite Hdi in Hd; injection Hd as <-; simpl.
      * unfold manifestEntry. by rewrite Hr.
      * done.
    + destruct Hc as [Hr ->]. simpl.
      rewrite list_lookup_insert_eq by done. rewrite list_lookup_alter_eq, Hdi.
      intros [= <-] [= <-]. simpl. unfold manifestEntry. by rewrite Hr.
    + intros Hg Hd. rewrite Hi in Hg. injection Hg as <-.
      rewrite Hdi in Hd. injection Hd as <-. done.
  - assert (Hkeep : ∀ g', <[i := g']> (goroutines h) !! j = Some g →
                          dependencies h !! j = Some d → consistent sys s p g d).
    { intros g'. rewrite list_lookup_insert_ne by done. eauto. }
    destruct gi as [p'|data|]; [| |by eauto].
    + destruct (ioutil_ReadFile sys p' s) as [data [e|]]; simpl; eauto.
    + simpl. rewrite list_lookup_alter_ne by done. eauto.
Qed.

Lemma invariant_run s nodeModules schedule h :
  invariant sys s nodeModules h → invariant sys s nodeModules (run sys s schedule h).
Proof.
  unfold run. revert h.
  induction schedule as [|i schedule IH]; intros h Hinv; simpl; [done |].
  apply IH. by apply invariant_step.
Qed.

Lemma collect_id (ds : list NodeModule) : collect ds = ds.
Proof.
  unfold collect.
  enough (∀ acc, foldl (λ (deps : list NodeModule) d, deps ++ [d]) acc ds = acc ++ ds)
    as H by apply (H []).
  induction ds as [|d ds IH]; intros acc; simpl.
  - by rewrite app_nil_r.
  - rewrite IH, <- app_assoc. done.
Qed.

(** Once every goroutine has finished, slot i holds the entry of path i. *)
Lemma invariant_waited s nodeModules h :
  invariant sys s nodeModules h → waited h = true →
  dependencies h = manifestEntry sys s <$> nodeModules.
Proof.
  intros (Hlg & Hld & Hc) Hw. apply list_eq. intros i.
  rewrite list_lookup_fmap.
  destruct (nodeModules !! i) as [p|] eqn:Hp; simpl.
  - assert (Hlt : i < length nodeModules) by (by eapply lookup_lt_Some).
    destruct (lookup_lt_is_Some_2 (goroutines h) i) as [g Hg]; [lia |].
    destruct (lookup_lt_is_Some_2 (dependencies h) i) as [d Hd]; [lia |].
    specialize (Hc i p g d Hp Hg Hd).
    unfold waited in Hw. rewrite forallb_forall in Hw.
    assert (Hfin : is_Finished g = true).
    { apply Hw. apply list_elem_of_In. eapply list_elem_of_lookup_2. exact Hg. }
    destruct g; try discriminate. simpl in Hc. by rewrite Hd, Hc.
  - apply lookup_ge_None. apply lookup_ge_None in Hp. lia.
Qed.

(** *** Progress of the goroutines *)

Lemma stepsLeftAt_step_same s h i :
  stepsLeftAt h i ≠ 0 → stepsLeftAt (step sys s h i) i < stepsLeftAt h i.
Proof.
  unfold stepsLeftAt, step.
  destruct (goroutines h !! i) as [g|] eqn:Hi; simpl; [| done].
  assert (Hlt : i < length (goroutines h)) by (by eapply lookup_lt_Some).
  destruct g as [p|data|]; simpl; [| |done].
  - destruct (ioutil_ReadFile sys p s) as [data [e|]]; simpl;
      rewrite list_lookup_insert_eq by done; simpl; lia.
  - rewrite list_lookup_insert_eq by done. simpl. lia.
Qed.

Lemma stepsLeftAt_step_other s h i j :
  i ≠ j → stepsLeftAt (step sys s h i) j = stepsLeftAt h j.
Proof.
  intros Hne. unfold stepsLeftAt, step.
  destruct (goroutines h !! i) as [[p|data|]|]; simpl; [| |done|done].
  - destruct (ioutil_ReadFile sys p s) as [data [e|]]; simpl;
      by rewrite list_lookup_insert_ne.
  - by rewrite list_lookup_insert_ne.
Qed.

Lemma stepsLeftAt_run s schedule h j :
  stepsLeftAt (run sys s schedule h) j ≤ stepsLeftAt h j - count_occ Nat.eq_dec schedule j.
Proof.
  unfold run. revert h.
  induction schedule as [|i schedule IH]; intros h; simpl; [lia |].
  specialize (IH (step sys s h i)).
  destruct (Nat.eq_dec i j) as [-> | Hne].
  - destruct (decide (stepsLeftAt h j = 0)) as [Hz | Hnz].
    + assert (stepsLeftAt (step sys s h j) j = 0); [| lia].
      unfold stepsLeftAt, step in *.
      destruct (goroutines h !! j) as [[p|data|]|] eqn:Hj; simpl in *;
        try discriminate; by rewrite ?Hj.
    + pose proof (stepsLeftAt_step_same s h j Hnz). lia.
  - rewrite stepsLeftAt_step_other in IH by done. lia.
Qed.

(** A fair schedule brings every goroutine past its [wg.Done()]. *)
Lemma fair_waited s nodeModules schedule :
  fair (length nodeModules) schedule = true →
  waited (run sys s schedule (spawn nodeModules)) = true.
Proof.
  intros Hfair. unfold fair in Hfair. rewrite forallb_forall in Hfair.
  pose proof (invariant_run s nodeModules schedule _ (invariant_spawn s nodeModules))
    as (Hlg & _ & _).
  unfold waited. rewrite forallb_forall. intros g Hin.
  apply list_elem_of_In, list_elem_of_lookup in Hin as [j Hj].
  assert (Hlt : j < length nodeModules).
  { rewrite <- Hlg. by eapply lookup_lt_Some. }
  assert (Hcnt : 2 ≤ count_occ Nat.eq_dec schedule j).
  { apply Nat.leb_le, Hfair, in_seq. lia. }
  pose proof (stepsLeftAt_run s schedule (spawn nodeModules) j) as Hle.
  assert (Hinit : stepsLeftAt (spawn nodeModules) j ≤ 2).
  { unfold stepsLeftAt, spawn; simpl. rewrite list_lookup_fmap.
    destruct (nodeModules !! j); simpl; lia. }
  unfold stepsLeftAt at 1 in Hle. rewrite Hj in Hle. simpl in Hle.
  destruct g; simpl in *; [lia | lia | done].
Qed.

(** *** Analyze *)

Lemma Analyze_glob_failed builder m (flag : bool) schedule w nodeModules e :
  doublestar_Glob sys (globPattern sys m) (os w) = (nodeModules, Some e) →
  Analyze sys builder m flag schedule w = (Ret (Some ([], Some e)), w).
Proof. intros Hg. unfold Analyze. go_unfold. by rewrite Hg. Qed.

Lemma Analyze_glob_ok builder m (flag : bool) schedule w nodeModules :
  doublestar_Glob sys (globPattern sys m) (os w) = (nodeModules, None) →
  Analyze sys builder m flag schedule w =
    if waited (run sys (os w) schedule (spawn nodeModules))
    then (Ret (Some (manifestEntry sys (os w) <$> nodeModules, None)), w)
    else (Ret None, w).
Proof.
  intros Hg. unfold Analyze. go_unfold. rewrite Hg.
  destruct (waited _) eqn:Hw; [| done].
  rewrite collect_id.
  by rewrite (invariant_waited (os w) nodeModules _
                (invariant_run _ _ _ _ (invariant_spawn _ _)) Hw).
Qed.

Lemma filter_split_length (f : string → bool) (l : list string) :
  length (filter (λ p, f p = true) l) + length (filter (λ p, f p = false) l) = length l.
Proof.
  induction l as [|p l IH]; [done |].
  rewrite !filter_cons. destruct (f p) eqn:Hf; simpl;
    repeat case_decide; try congruence; simpl; lia.
Qed.

(** C1, as the code has it: when the scan finds the paths [nodeModules],
    Analyze returns one entry per path, in the order of the paths: K + M
    entries for K valid and M invalid manifests.  Entry i is what the
    goroutine of path i left in its slot, and for a manifest that cannot
    be read that is the zero-valued NodeModule.  Nothing is filtered
    out. *)
Theorem Analyze_one_entry_per_manifest builder m (flag : bool) schedule w nodeModules :
  doublestar_Glob sys (globPattern sys m) (os w) = (nodeModules, None) →
  fair (length nodeModules) schedule = true →
  ∃ deps,
    Analyze sys builder m flag schedule w = (Ret (Some (deps, None)), w)
    ∧ length deps
      = length (filter (λ p, validManifest sys (os w) p = true) nodeModules)
        + length (filter (λ p, validManifest sys (os w) p = false) nodeModules)
    ∧ (∀ i p, nodeModules !! i = Some p → deps !! i = Some (manifestEntry sys (os w) p))
    ∧ (∀ i p e, nodeModules !! i = Some p →
                (ioutil_ReadFile sys p (os w)).2 = Some e →
                deps !! i = Some NodeModule_zero).
Proof.
  intros Hg Hfair. exists (manifestEntry sys (os w) <$> nodeModules).
  rewrite (Analyze_glob_ok _ _ _ _ _ _ Hg), (fair_waited _ _ _ Hfair).
  split; [done |]. split.
  { by rewrite length_fmap, filter_split_length. }
  split.
  - intros i p Hp. by rewrite list_lookup_fmap, Hp.
  - intros i p e Hp Hr. rewrite list_lookup_fmap, Hp. simpl. f_equal.
    unfold manifestEntry. destruct (ioutil_ReadFile sys p (os w)) as [d [e'|]]; [done |].
    discriminate.
Qed.

(** C7: Analyze returns an error exactly when the glob fails, and then it
    returns that error; when the glob succeeds with no match Analyze
    returns the empty sequence and no error. *)
Theorem Analyze_error_iff_glob_fails builder m (flag : bool) schedule w :
  (∀ e, (∃ deps w', Analyze sys builder m flag schedule w = (Ret (Some (deps, Some e)), w'))
        ↔ (doublestar_Glob sys (globPattern sys m) (os w)).2 = Some e)
  ∧ (doublestar_Glob sys (globPattern sys m) (os w) = ([], None) →
     Analyze sys builder m flag schedule w = (Ret (Some ([], None)), w)).
Proof.
  split.
  - intros e.
    destruct (doublestar_Glob sys (globPattern sys m) (os w)) as [ps [e'|]] eqn:Hg; simpl.
    + rewrite (Analyze_glob_failed _ _ _ _ _ _ _ Hg). split.
      * intros (deps & w' & [= <- <- <-]). done.
      * intros [= <-]. eauto.
    + rewrite (Analyze_glob_ok _ _ _ _ _ _ Hg). split; [| done].
      intros (deps & w' & H). destruct (waited _); discriminate.
  - intros Hg. rewrite (Analyze_glob_ok _ _ _ _ _ _ Hg).
    by rewrite (fair_waited (os w) [] schedule eq_refl).
Qed.

(** C8: the result of Analyze does not depend on how its goroutines are
    scheduled.  Under every fair schedule Analyze returns, slot i holding
    the entry of path i; whenever Analyze returns, every goroutine has
    passed the barrier and the result is that same sequence; so any two
    runs over the same system state return the same sequence. *)
Theorem Analyze_schedule_independent builder m (flag : bool) w nodeModules :
  doublestar_Glob sys (globPattern sys m) (os w) = (nodeModules, None) →
  (∀ schedule, fair (length nodeModules) schedule = true →
     Analyze sys builder m flag schedule w
     = (Ret (Some (manifestEntry sys (os w) <$> nodeModules, None)), w))
  ∧ (∀ schedule r w', Analyze sys builder m flag schedule w = (Ret (Some r), w') →
       waited (run sys (os w) schedule (spawn nodeModules)) = true
       ∧ r = (manifestEntry sys (os w) <$> nodeModules, None) ∧ w' = w)
  ∧ (∀ schedule1 schedule2 r1 r2 w1 w2,
       Analyze sys builder m flag schedule1 w = (Ret (Some r1), w1) →
       Analyze sys builder m flag schedule2 w = (Ret (Some r2), w2) →
       r1 = r2 ∧ w1 = w2).
Proof.
  intros Hg.
  assert (Hret : ∀ schedule r w',
    Analyze sys builder m flag schedule w = (Ret (Some r), w') →
    waited (run sys (os w) schedule (spawn nodeModules)) = true
    ∧ r = (manifestEntry sys (os w) <$> nodeModules, None) ∧ w' = w).
  { intros schedule r w'. rewrite (Analyze_glob_ok _ _ _ _ _ _ Hg).
    destruct (waited _); [| discriminate]. by intros [= <- <-]. }
  split; [| split; [exact Hret |]].
  - intros schedule Hfair.
    by rewrite (Analyze_glob_ok _ _ _ _ _ _ Hg), (fair_waited _ _ _ Hfair).
  - intros schedule1 schedule2 r1 r2 w1 w2 H1 H2.
    destruct (Hret _ _ _ H1) as (_ & -> & ->).
    destruct (Hret _ _ _ H2) as (_ & -> & ->). done.
Qed.

(** *** strings.TrimSpace on a version string *)

Lemma TrimLeft_marker (out : string) : TrimLeft (String "v" out) = String "v" out.
Proof. destruct out as [|c2 [|c3 out]]; reflexivity. Qed.

Lemma TrimSpace_marker (out : string) :
  strings_TrimSpace (String "v" out) = String "v" (TrimRight out).
Proof.
  unfold strings_TrimSpace. rewrite TrimLeft_marker.
  change (TrimRight (String "v" out))
    with (if String.eqb (TrimLeft (String "v" out)) "" then EmptyString
          else String "v" (TrimRight out)).
  by rewrite TrimLeft_marker.
Qed.

(** *** The loop over the runtime candidates *)

Lemma nodeLoop_cons c rest builder w :
  nodeLoop sys (c :: rest) builder w =
    if String.eqb c "" then nodeLoop sys rest builder w
    else
      let w' := mkWorld (cmd_Output sys (versionProbe c) (os w)).2
                        (invoked w ++ [versionProbe c]) in
      match (cmd_Output sys (versionProbe c) (os w)).1 with
      | (_, Some _) => nodeLoop sys rest builder w'
      | (nodeVersionOutput, None) =>
        match nodeVersionOutput with
        | EmptyString =>
          (Panic "runtime error: index out of range [0] with length 0", w')
        | String b0 out =>
          if Ascii.eqb b0 "v"
          then (Ret (inr (set_NodeCmd (set_NodeVersion builder (TrimRight out)) c)), w')
          else nodeLoop sys rest builder w'
        end
      end.
Proof.
  simpl nodeLoop. destruct (String.eqb c ""); [done |].
  go_unfold. unfold versionProbe.
  destruct (cmd_Output sys (exec_Command c ["-v"]) (os w)) as [[out [e|]] s']; simpl; [done |].
  destruct out as [|b0 out]; simpl; [done |].
  destruct (Ascii.eqb_spec b0 "v") as [-> | Hne]; [| done].
  by rewrite TrimSpace_marker.
Qed.

(** An empty candidate is skipped: no subprocess, no change. *)
Lemma nodeLoop_skips_empty rest builder w :
  nodeLoop sys ("" :: rest) builder w = nodeLoop sys rest builder w.
Proof. by rewrite nodeLoop_cons. Qed.

(** The loop leaves the builder alone until it breaks. *)
Lemma nodeLoop_app pre rest builder w e w1 :
  nodeLoop sys pre builder w = (Ret (inl e), w1) →
  nodeLoop sys (pre ++ rest) builder w = nodeLoop sys rest builder w1.
Proof.
  revert w. induction pre as [|c pre IH]; intros w.
  - simpl. go_unfold. by intros [= <- <-].
  - rewrite <- app_comm_cons, !nodeLoop_cons.
    destruct (String.eqb c ""); [by apply IH |].
    destruct (cmd_Output sys (versionProbe c) (os w)) as [[out [e'|]] s']; simpl;
      [by apply IH |].
    destruct out as [|b0 out]; [done |].
    destruct (Ascii.eqb b0 "v"); [done | by apply IH].
Qed.

Lemma Initialize_loop builder w :
  Initialize sys builder w =
    match nodeLoop sys (nodeCandidates sys (os w)) builder w with
    | (Ret (inl e), w') => (Ret (builder, Some e), w')
    | (Ret (inr builder'), w') => managers sys builder' w'
    | (Panic msg, w') => (Panic msg, w')
    end.
Proof.
  unfold Initialize, nodeCandidates. go_unfold.
  by destruct (nodeLoop sys _ builder w) as [[[e|b']|msg] w'].
Qed.

(** C10: the loop indexes the first byte of a successful version query's
    output without looking at its length.  Whenever the loop reaches a
    candidate whose query succeeds with empty output, that access is out
    of bounds and Initialize panics. *)
Theorem Initialize_panics_on_silent_candidate builder w pre c post e w1 s' :
  nodeCandidates sys (os w) = pre ++ c :: post →
  nodeLoop sys pre builder w = (Ret (inl e), w1) →
  c ≠ "" →
  cmd_Output sys (versionProbe c) (os w1) = (("", None), s') →
  Initialize sys builder w
  = (Panic "runtime error: index out of range [0] with length 0",
     mkWorld s' (invoked w1 ++ [versionProbe c])).
Proof.
  intros Hc Hpre Hne Hout.
  rewrite Initialize_loop, Hc, (nodeLoop_app _ _ _ _ _ _ Hpre), nodeLoop_cons.
  apply String.eqb_neq in Hne. rewrite Hne, Hout. done.
Qed.

(** *** The package managers *)

Lemma default_nonempty (v d : string) :
  d ≠ "" → (if String.eqb v "" then d else v) ≠ "".
Proof. intros Hd. destruct (String.eqb_spec v ""); done. Qed.

(** The part after the loop, in one equation: it always returns, keeps
    the runtime fields, sets both commands to the override or else the
    default name, and sets a version only when the query yields one. *)
Lemma managers_eq builder w :
  managers sys builder w =
    let npm := managerCmd sys (os w) "NPM_BINARY" "npm" in
    let r1 := cmd_Output sys (versionProbe npm) (os w) in
    let yarn := managerCmd sys r1.2 "YARN_BINARY" "yarn" in
    let r2 := cmd_Output sys (versionProbe yarn) r1.2 in
    let b' := mkNodeJSBuilder (NodeCmd builder) (NodeVersion builder)
                npm (default (NpmVersion builder) (versionOf r1.1))
                yarn (default (YarnVersion builder) (versionOf r2.1)) in
    (Ret (b', if String.eqb (NpmVersion b') "" && String.eqb (YarnVersion b') ""
              then Some (errors_New
                "could not find NPM binary or Yarn binary (try setting $NPM_BINARY or $YARN_BINARY)")
              else None),
     mkWorld r2.2 ((invoked w ++ [versionProbe npm]) ++ [versionProbe yarn])).
Proof.
  unfold managers, managerCmd, versionProbe. go_unfold. simpl.
  destruct (String.eqb (os_Getenv sys "NPM_BINARY" (os w)) "") eqn:Hn; simpl;
    destruct (cmd_Output sys _ (os w)) as [r1 s1]; simpl;
    destruct (String.eqb (os_Getenv sys "YARN_BINARY" s1) "") eqn:Hy; simpl;
    destruct (cmd_Output sys _ s1) as [r2 s2]; simpl;
    destruct (versionOf r1) as [v1|], (versionOf r2) as [v2|]; simpl;
    rewrite ?Hn, ?Hy; simpl;
    repeat match goal with
           | |- context [String.eqb ?x ""] => destruct (String.eqb x "")
           end; reflexivity.
Qed.

Lemma managerCmd_nonempty s (key d : string) : d ≠ "" → managerCmd sys s key d ≠ "".
Proof. intros Hd. unfold managerCmd. by apply default_nonempty. Qed.

Lemma managers_returns builder w :
  ∃ b' r w', managers sys builder w = (Ret (b', r), w')
             ∧ NodeCmd b' = NodeCmd builder ∧ NodeVersion b' = NodeVersion builder
             ∧ NpmCmd b' ≠ "" ∧ YarnCmd b' ≠ "".
Proof.
  rewrite managers_eq. eexists _, _, _. split; [reflexivity |]. simpl.
  split; [done |]. split; [done |]. split; by apply managerCmd_nonempty.
Qed.

Lemma Initialize_commands_nonempty builder w b' w' :
  Initialize sys builder w = (Ret (b', None), w') → NpmCmd b' ≠ "" ∧ YarnCmd b' ≠ "".
Proof.
  rewrite Initialize_loop.
  destruct (nodeLoop sys _ builder w) as [[[e|b1]|msg] w1]; try discriminate.
  destruct (managers_returns b1 w1) as (b2 & r & w2 & -> & _ & _ & Hn & Hy).
  by intros [= <- _ _].
Qed.

(** *** Build and the lockfile *)

Lemma Build_lockfile_guard builder m w :
  entryExists sys (os w) (filepath_Join sys [Dir m; "yarn.lock"]) = true →
  YarnCmd builder = "" →
  Build sys builder m false w = (Ret (Some errYarnMissing), w).
Proof.
  unfold entryExists, Build, install. go_unfold. intros Hlock ->.
  by destruct (os_Stat sys _ (os w)).
Qed.

Lemma Build_lockfile_yarn builder m w :
  entryExists sys (os w) (filepath_Join sys [Dir m; "yarn.lock"]) = true →
  YarnCmd builder ≠ "" →
  Build sys builder m false w
  = (Ret (cmd_Output sys (yarnInstall builder m) (os w)).1.2,
     mkWorld (cmd_Output sys (yarnInstall builder m) (os w)).2
             (invoked w ++ [yarnInstall builder m])).
Proof.
  unfold entryExists, Build, install. go_unfold. intros Hlock Hy.
  apply String.eqb_neq in Hy. rewrite Hy.
  destruct (os_Stat sys _ (os w)); [done |].
  by destruct (cmd_Output sys (yarnInstall builder m) (os w)) as [[out e] s'].
Qed.

(** After an Initialize that returned no error the guard on [YarnCmd] in
    Build cannot fire: with a lockfile present Build spawns the Yarn
    install, whether or not Yarn resolved a version. *)
Lemma Build_after_Initialize_invokes_yarn builder w b' w' m w2 :
  Initialize sys builder w = (Ret (b', None), w') →
  entryExists sys (os w2) (filepath_Join sys [Dir m; "yarn.lock"]) = true →
  invoked (Build sys b' m false w2).2 = invoked w2 ++ [yarnInstall b' m].
Proof.
  intros Hinit Hlock.
  destruct (Initialize_commands_nonempty _ _ _ _ Hinit) as [_ Hy].
  by rewrite (Build_lockfile_yarn _ _ _ Hlock Hy).
Qed.

(** *** Initialize on runs that meet no silent candidate *)

Lemma existsb_first {A : Type} (f : A → bool) (l : list A) :
  existsb f l = true →
  ∃ pre c post, l = pre ++ c :: post ∧ Forall (λ x, f x = false) pre ∧ f c = true.
Proof.
  induction l as [|a l IH]; simpl; [done |].
  destruct (f a) eqn:Ha; simpl.
  - intros _. by exists [], a, l.
  - intros (pre & c & post & -> & Hpre & Hc)%IH.
    exists (a :: pre), c, post. split; [done |]. split; [by constructor | done].
Qed.

Lemma existsb_none {A : Type} (f : A → bool) (l : list A) :
  existsb f l = false → Forall (λ x, f x = false) l.
Proof.
  induction l as [|a l IH]; simpl; [by constructor |].
  intros [Ha Hl]%orb_false_iff. constructor; auto.
Qed.

(** Candidates that are neither accepted nor silent are passed over. *)
Lemma nodeLoop_rejects pre builder w :
  probesPure sys →
  Forall (λ c, probeAccepts sys (os w) c = false ∧ probeSilent sys (os w) c = false) pre →
  ∃ tr, nodeLoop sys pre builder w
        = (Ret (inl (errors_New "could not find Nodejs binary (try setting $NODE_BINARY)")),
           mkWorld (os w) tr).
Proof.
  intros Hpure. revert w.
  induction pre as [|c pre IH]; intros w Hall.
  - exists (invoked w). by destruct w.
  - apply Forall_cons in Hall as [[Hacc Hsil] Hall].
    rewrite nodeLoop_cons. unfold probeAccepts, probeSilent in Hacc, Hsil.
    destruct (String.eqb c ""); [by apply IH |]. simpl in Hacc, Hsil.
    pose proof (Hpure c (os w)) as Hs.
    destruct (cmd_Output sys (versionProbe c) (os w)) as [[out [e|]] s']; simpl in *; subst s'.
    + by apply (IH (mkWorld (os w) _)).
    + destruct out as [|b0 out]; [done |]. rewrite Hacc.
      by apply (IH (mkWorld (os w) _)).
Qed.

(** An accepted candidate ends the loop. *)
Lemma nodeLoop_accepts c post builder w :
  probeAccepts sys (os w) c = true →
  ∃ v, nodeLoop sys (c :: post) builder w
       = (Ret (inr (set_NodeCmd (set_NodeVersion builder v) c)),
          mkWorld (cmd_Output sys (versionProbe c) (os w)).2 (invoked w ++ [versionProbe c])).
Proof.
  intros Hacc. rewrite nodeLoop_cons. unfold probeAccepts in Hacc.
  destruct (String.eqb c ""); [done |]. simpl in Hacc.
  destruct (cmd_Output sys (versionProbe c) (os w)) as [[out [e|]] s']; simpl in *; [done |].
  destruct out as [|b0 out]; [done |]. rewrite Hacc. eauto.
Qed.

(** The loop resolves the runtime to the first accepted candidate when no
    candidate before it is silent. *)
Lemma Initialize_resolves_first_accepted builder w pre c post :
  probesPure sys →
  nodeCandidates sys (os w) = pre ++ c :: post →
  Forall (λ x, probeAccepts sys (os w) x = false ∧ probeSilent sys (os w) x = false) pre →
  probeAccepts sys (os w) c = true →
  ∃ b' r w', Initialize sys builder w = (Ret (b', r), w') ∧ NodeCmd b' = c.
Proof.
  intros Hpure Hc Hpre Hacc.
  destruct (nodeLoop_rejects pre builder w Hpure Hpre) as [tr Hrej].
  destruct (nodeLoop_accepts c post builder (mkWorld (os w) tr) Hacc) as [v Hv].
  rewrite Initialize_loop, Hc, (nodeLoop_app _ _ _ _ _ _ Hrej), Hv.
  match goal with
  | |- ∃ b' r w', managers sys ?b ?w0 = _ ∧ _ =>
      destruct (managers_returns b w0) as (b' & r & w' & -> & Hcmd & _)
  end.
  by exists b', r, w'.
Qed.

(** A set and valid override is first in the list, so it always wins. *)
Lemma Initialize_override_wins builder w :
  probeAccepts sys (os w) (os_Getenv sys "NODE_BINARY" (os w)) = true →
  ∃ b' r w', Initialize sys builder w = (Ret (b', r), w')
             ∧ NodeCmd b' = os_Getenv sys "NODE_BINARY" (os w).
Proof.
  intros Hacc.
  destruct (nodeLoop_accepts _ ["node"; "nodejs"] builder w Hacc) as [v Hv].
  rewrite Initialize_loop. unfold nodeCandidates. rewrite Hv.
  match goal with
  | |- ∃ b' r w', managers sys ?b ?w0 = _ ∧ _ =>
      destruct (managers_returns b w0) as (b' & r & w' & -> & Hcmd & _)
  end.
  by exists b', r, w'.
Qed.

Lemma managerResolves_version s (key d : string) :
  managerResolves sys s key d
  = negb (String.eqb
            (default "" (versionOf (cmd_Output sys (versionProbe (managerCmd sys s key d)) s).1))
            "").
Proof. unfold managerResolves. by destruct (versionOf _). Qed.

(** On a fresh builder, with version queries that leave the system as it
    is and no silent candidate, Initialize returns, and it returns an
    error exactly when no runtime candidate is accepted or neither package
    manager resolves a version. *)
Lemma Initialize_error_iff builder w :
  probesPure sys →
  NpmVersion builder = "" → YarnVersion builder = "" →
  Forall (λ c, probeSilent sys (os w) c = false) (nodeCandidates sys (os w)) →
  ∃ b' r tr,
    Initialize sys builder w = (Ret (b', r), mkWorld (os w) tr)
    ∧ (is_Some r ↔
       existsb (probeAccepts sys (os w)) (nodeCandidates sys (os w)) = false
       ∨ (managerResolves sys (os w) "NPM_BINARY" "npm" = false
          ∧ managerResolves sys (os w) "YARN_BINARY" "yarn" = false)).
Proof.
  intros Hpure Hnpm Hyarn Hsil.
  destruct (existsb (probeAccepts sys (os w)) (nodeCandidates sys (os w))) eqn:Hex.
  - apply existsb_first in Hex as (pre & c & post & Hc & Hpre & Hacc).
    rewrite Hc in Hsil. apply Forall_app in Hsil as [Hsil _].
    assert (Hrej : Forall (λ x, probeAccepts sys (os w) x = false
                                ∧ probeSilent sys (os w) x = false) pre).
    { rewrite Forall_forall in *. auto. }
    destruct (nodeLoop_rejects pre builder w Hpure Hrej) as [tr Hloop].
    destruct (nodeLoop_accepts c post builder (mkWorld (os w) tr) Hacc) as [v Hv].
    rewrite Initialize_loop, Hc, (nodeLoop_app _ _ _ _ _ _ Hloop), Hv, managers_eq.
    simpl. rewrite !Hpure, Hnpm, Hyarn. eexists _, _, _. split; [reflexivity |].
    rewrite !managerResolves_version.
    destruct (String.eqb (default "" (versionOf _)) "");
      destruct (String.eqb (default "" (versionOf _)) ""); simpl;
      split; intros H; try done; try (by right); try (by destruct H as [? | [? ?]]).
  - apply existsb_none in Hex.
    assert (Hrej : Forall (λ x, probeAccepts sys (os w) x = false
                                ∧ probeSilent sys (os w) x = false)
                          (nodeCandidates sys (os w))).
    { rewrite Forall_forall in *. auto. }
    destruct (nodeLoop_rejects _ builder w Hpure Hrej) as [tr Hloop].
    rewrite Initialize_loop, Hloop. eexists _, _, _. split; [reflexivity |].
    split; [by left | by eexists].
Qed.

End Properties.

(** ** The builder on the concrete system *)

Example TrimSpace_version :
  strings_TrimSpace (" v8.11.1 " ++ Host.newline)%string = "v8.11.1".
Proof. reflexivity. Qed.

(** U+00A0 before and U+2003 after the text. *)
Example TrimSpace_unicode :
  strings_TrimSpace (String "194" (String "160" (String "a" (String " " (String "b"
                      (String "226" (String "128" (String "131" "")))))))) = "a b".
Proof. reflexivity. Qed.

Example TrimSpace_blank : strings_TrimSpace "     " = "".
Proof. reflexivity. Qed.

Example Initialize_npmOnly :
  Initialize Host.sys NodeJSBuilder_zero (Host.start Host.npmOnly)
  = (Ret (mkNodeJSBuilder "node" "8.11.1" "npm" "5.6.0" "yarn" "", None),
     mkWorld Host.npmOnly [versionProbe "node"; versionProbe "npm"; versionProbe "yarn"]).
Proof. vm_compute; reflexivity. Qed.

Example Initialize_overridden :
  Initialize Host.sys NodeJSBuilder_zero (Host.start Host.overridden)
  = (Ret (mkNodeJSBuilder "/opt/node/bin/node" "10.0.0" "npm" "" "yarn" "1.22.0", None),
     mkWorld Host.overridden
       [versionProbe "/opt/node/bin/node"; versionProbe "npm"; versionProbe "yarn"]).
Proof. vm_compute; reflexivity. Qed.

(** A forced Build on a system without [rm] stops at the deletion. *)
Example Build_force_without_rm :
  Build Host.sys (mkNodeJSBuilder "/opt/node/bin/node" "10.0.0" "npm" "" "yarn" "1.22.0")
        Host.app true (Host.start Host.overridden)
  = (Ret (Some (Foreign "exec" "executable file not found in $PATH")),
     mkWorld Host.overridden [rmCmd Host.app]).
Proof. vm_compute; reflexivity. Qed.

(** A forced Build removes node_modules, after which IsBuilt answers no. *)
Example IsBuilt_after_forced_Build :
  (IsBuilt Host.sys NodeJSBuilder_zero Host.app false (Host.start Host.npmOnly)).1
  = Ret (true, None)
  ∧ (IsBuilt Host.sys NodeJSBuilder_zero Host.app false
       (Build Host.sys NodeJSBuilder_zero Host.app true (Host.start Host.npmOnly)).2).1
    = Ret (false, None).
Proof. split; vm_compute; reflexivity. Qed.

(** An unfair schedule leaves Analyze at the barrier. *)
Example Analyze_blocked :
  Analyze Host.sys NodeJSBuilder_zero Host.app false [0; 0; 1] (Host.start Host.npmOnly)
  = (Ret None, Host.start Host.npmOnly).
Proof. vm_compute; reflexivity. Qed.

(** C1, as stated, fails: on the design document's example the scan finds
    two manifests, one valid and one invalid, and Analyze returns two
    entries, the second one the zero-valued placeholder. *)
Lemma Analyze_example_keeps_placeholder :
  (doublestar_Glob Host.sys (globPattern Host.sys Host.app) Host.npmOnly).1
  = ["app/node_modules/lodash/package.json"; "app/node_modules/left-pad/package.json"]
  ∧ validManifest Host.sys Host.npmOnly "app/node_modules/lodash/package.json" = true
  ∧ validManifest Host.sys Host.npmOnly "app/node_modules/left-pad/package.json" = false
  ∧ Analyze Host.sys NodeJSBuilder_zero Host.app false [0; 1; 0; 1] (Host.start Host.npmOnly)
    = (Ret (Some ([mkNodeModule "lodash" "4.17.0"; NodeModule_zero], None)),
       Host.start Host.npmOnly)
  ∧ Analyze Host.sys NodeJSBuilder_zero Host.app false [0; 1; 0; 1] (Host.start Host.npmOnly)
    ≠ (Ret (Some ([mkNodeModule "lodash" "4.17.0"], None)), Host.start Host.npmOnly).
Proof.
  repeat split; try (vm_compute; reflexivity).
  intros H. vm_compute in H. discriminate H.
Qed.

Lemma Analyze_one_entry_per_manifest_witness :
  doublestar_Glob Host.sys (globPattern Host.sys Host.app) Host.npmOnly
  = (["app/node_modules/lodash/package.json"; "app/node_modules/left-pad/package.json"], None)
  ∧ fair 2 [1; 0; 0; 1] = true
  ∧ ∃ deps,
      Analyze Host.sys NodeJSBuilder_zero Host.app false [1; 0; 0; 1] (Host.start Host.npmOnly)
      = (Ret (Some (deps, None)), Host.start Host.npmOnly)
      ∧ length deps = 2.
Proof.
  split; [vm_compute; reflexivity |]. split; [reflexivity |].
  destruct (Analyze_one_entry_per_manifest Host.sys NodeJSBuilder_zero Host.app false
              [1; 0; 0; 1] (Host.start Host.npmOnly)
              ["app/node_modules/lodash/package.json"; "app/node_modules/left-pad/package.json"])
    as (deps & Hret & Hlen & _).
  - vm_compute; reflexivity.
  - reflexivity.
  - exists deps. split; [exact Hret |]. rewrite Hlen. vm_compute; reflexivity.
Defined.

(** C2: after an Initialize on a system without Yarn (npm resolves, the
    Yarn query fails) the builder holds the default command "yarn" and no
    Yarn version.  Build on a module with a yarn.lock then does not return
    the "lockfile found but Yarn binary missing" error: it spawns the Yarn
    install and returns the error of that subprocess. *)
Theorem Build_invokes_unresolved_yarn :
  managerResolves Host.sys Host.npmOnly "YARN_BINARY" "yarn" = false
  ∧ entryExists Host.sys Host.npmOnly (filepath_Join Host.sys [Dir Host.app; "yarn.lock"]) = true
  ∧ ∃ b w1,
      Initialize Host.sys NodeJSBuilder_zero (Host.start Host.npmOnly) = (Ret (b, None), w1)
      ∧ YarnCmd b = "yarn" ∧ YarnVersion b = "" ∧ os w1 = Host.npmOnly
      ∧ Build Host.sys b Host.app false (Host.start Host.npmOnly)
        = (Ret (Some (Foreign "exec" "executable file not found in $PATH")),
           mkWorld Host.npmOnly [yarnInstall b Host.app])
      ∧ Build Host.sys b Host.app false (Host.start Host.npmOnly)
        ≠ (Ret (Some errYarnMissing), Host.start Host.npmOnly).
Proof.
  split; [vm_compute; reflexivity |]. split; [vm_compute; reflexivity |].
  eexists _, _. split; [vm_compute; reflexivity |].
  repeat split; try (vm_compute; reflexivity).
  intros H. vm_compute in H. discriminate H.
Qed.

(** C3: on a system whose [node] answers the version query with no output
    and no error, and that has no other tool, no runtime candidate is
    accepted and neither package manager resolves a version, yet Initialize
    returns no error: it panics in the loop. *)
Theorem Initialize_panics_where_error_is_due :
  existsb (probeAccepts Host.sys Host.silentNodeOnly)
          (nodeCandidates Host.sys Host.silentNodeOnly) = false
  ∧ managerResolves Host.sys Host.silentNodeOnly "NPM_BINARY" "npm" = false
  ∧ managerResolves Host.sys Host.silentNodeOnly "YARN_BINARY" "yarn" = false
  ∧ Initialize Host.sys NodeJSBuilder_zero (Host.start Host.silentNodeOnly)
    = (Panic "runtime error: index out of range [0] with length 0",
       mkWorld Host.silentNodeOnly [versionProbe "node"]).
Proof. repeat split; vm_compute; reflexivity. Qed.

(** C5: on a system whose [node] answers the version query with no output
    and no error and whose [nodejs] answers with a version, the first
    accepted candidate is "nodejs", yet Initialize does not resolve the
    runtime to it: it panics at "node". *)
Theorem Initialize_panics_before_first_accepted :
  nodeCandidates Host.sys Host.silentNode = [""; "node"; "nodejs"]
  ∧ List.find (probeAccepts Host.sys Host.silentNode) (nodeCandidates Host.sys Host.silentNode)
    = Some "nodejs"
  ∧ Initialize Host.sys NodeJSBuilder_zero (Host.start Host.silentNode)
    = (Panic "runtime error: index out of range [0] with length 0",
       mkWorld Host.silentNode [versionProbe "node"]).
Proof. repeat split; vm_compute; reflexivity. Qed.

Lemma Analyze_error_iff_glob_fails_witness :
  doublestar_Glob Host.sys (globPattern Host.sys (mkModule "lib")) Host.npmOnly = ([], None)
  ∧ Analyze Host.sys NodeJSBuilder_zero (mkModule "lib") false [] (Host.start Host.npmOnly)
    = (Ret (Some ([], None)), Host.start Host.npmOnly)
  ∧ ((∃ deps w', Analyze Host.sys NodeJSBuilder_zero (mkModule "[") false []
                   (Host.start Host.npmOnly)
                 = (Ret (Some (deps, Some (Foreign "doublestar" "syntax error in pattern"))), w'))
     ↔ (doublestar_Glob Host.sys (globPattern Host.sys (mkModule "[")) Host.npmOnly).2
       = Some (Foreign "doublestar" "syntax error in pattern")).
Proof.
  split; [vm_compute; reflexivity |]. split.
  - apply (proj2 (Analyze_error_iff_glob_fails Host.sys NodeJSBuilder_zero (mkModule "lib")
                    false [] (Host.start Host.npmOnly))).
    vm_compute; reflexivity.
  - apply (proj1 (Analyze_error_iff_glob_fails Host.sys NodeJSBuilder_zero (mkModule "[")
                    false [] (Host.start Host.npmOnly))).
Defined.

Lemma Analyze_schedule_independent_witness :
  doublestar_Glob Host.sys (globPattern Host.sys Host.app) Host.npmOnly
  = (["app/node_modules/lodash/package.json"; "app/node_modules/left-pad/package.json"], None)
  ∧ fair 2 [1; 1; 0; 0] = true
  ∧ Analyze Host.sys NodeJSBuilder_zero Host.app false [1; 1; 0; 0] (Host.start Host.npmOnly)
    = (Ret (Some (manifestEntry Host.sys Host.npmOnly
                    <$> ["app/node_modules/lodash/package.json";
                         "app/node_modules/left-pad/package.json"], None)),
       Host.start Host.npmOnly).
Proof.
  split; [vm_compute; reflexivity |]. split; [reflexivity |].
  apply (proj1 (Analyze_schedule_independent Host.sys NodeJSBuilder_zero Host.app false
                  (Host.start Host.npmOnly)
                  ["app/node_modules/lodash/package.json";
                   "app/node_modules/left-pad/package.json"]
                  ltac:(vm_compute; reflexivity))).
  reflexivity.
Defined.

Lemma Initialize_panics_on_silent_candidate_witness :
  nodeCandidates Host.sys Host.silentNode = [""] ++ "node" :: ["nodejs"]
  ∧ "node" ≠ ""
  ∧ cmd_Output Host.sys (versionProbe "node") Host.silentNode = (("", None), Host.silentNode)
  ∧ Initialize Host.sys NodeJSBuilder_zero (Host.start Host.silentNode)
    = (Panic "runtime error: index out of range [0] with length 0",
       mkWorld Host.silentNode ([] ++ [versionProbe "node"])).
Proof.
  split; [reflexivity |]. split; [discriminate |]. split; [reflexivity |].
  apply (Initialize_panics_on_silent_candidate Host.sys NodeJSBuilder_zero
           (Host.start Host.silentNode) [""] "node" ["nodejs"]
           (errors_New "could not find Nodejs binary (try setting $NODE_BINARY)")
           (Host.start Host.silentNode) Host.silentNode).
  - reflexivity.
  - reflexivity.
  - discriminate.
  - reflexivity.
Defined.

(** ** Further properties of the builder *)

Section Further.
Context {S : Type} (sys : Sys S).
Implicit Types (builder : NodeJSBuilder) (m : module_Module) (w : World S).

(** *** What the loop over the runtime candidates does *)

Lemma nodeLoop_trace nodeCmds builder w :
  ∃ tr, invoked (nodeLoop sys nodeCmds builder w).2 = invoked w ++ tr
        ∧ Forall isVersionProbe tr ∧ length tr ≤ length nodeCmds.
Proof.
  revert w. induction nodeCmds as [|c rest IH]; intros w.
  - exists []. simpl. rewrite app_nil_r. split; [done |]. split; [constructor | done].
  - rewrite nodeLoop_cons. destruct (String.eqb_spec c "") as [-> | Hc].
    + destruct (IH w) as (tr & Htr & Hall & Hlen). exists tr. simpl. auto with lia.
    + assert (Hp : isVersionProbe (versionProbe c)) by done.
      set (w1 := mkWorld (cmd_Output sys (versionProbe c) (os w)).2
                         (invoked w ++ [versionProbe c])).
      assert (Hrec : ∃ tr, invoked (nodeLoop sys rest builder w1).2 = invoked w ++ tr
                           ∧ Forall isVersionProbe tr ∧ length tr ≤ length (c :: rest)).
      { destruct (IH w1) as (tr & Htr & Hall & Hlen).
        exists (versionProbe c :: tr). rewrite Htr. unfold w1; simpl.
        rewrite <- app_assoc. split; [done |]. split; [by constructor | lia]. }
      assert (Hstop : ∀ r : result (error + NodeJSBuilder),
                 ∃ tr, invoked (r, w1).2 = invoked w ++ tr
                       ∧ Forall isVersionProbe tr ∧ length tr ≤ length (c :: rest)).
      { intros r. exists [versionProbe c]. simpl.
        split; [done |]. split; [by repeat constructor | lia]. }
      simpl. fold w1.
      destruct (cmd_Output sys (versionProbe c) (os w)).1 as [out [e|]]; [done |].
      destruct out as [|b0 out]; [by apply Hstop |].
      destruct (Ascii.eqb b0 "v"); [by apply Hstop | done].
Qed.

(** When the loop breaks, it has set the runtime fields from a non-empty
    candidate whose query returned no error and an output starting with
    [v]; the other fields are those it was given. *)
Lemma nodeLoop_break nodeCmds builder w b1 w1 :
  nodeLoop sys nodeCmds builder w = (Ret (inr b1), w1) →
  ∃ c out s0, c ∈ nodeCmds ∧ c ≠ ""
              ∧ (cmd_Output sys (versionProbe c) s0).1 = (String "v" out, None)
              ∧ b1 = set_NodeCmd (set_NodeVersion builder (TrimRight out)) c.
Proof.
  revert w. induction nodeCmds as [|c rest IH]; intros w.
  - simpl. go_unfold. done.
  - rewrite nodeLoop_cons.
    assert (Hrec : ∀ w0, nodeLoop sys rest builder w0 = (Ret (inr b1), w1) →
              ∃ c' out s0, c' ∈ c :: rest ∧ c' ≠ ""
                ∧ (cmd_Output sys (versionProbe c') s0).1 = (String "v" out, None)
                ∧ b1 = set_NodeCmd (set_NodeVersion builder (TrimRight out)) c').
    { intros w0 (c' & out & s0 & Hin & H)%IH. exists c', out, s0.
      split; [by apply elem_of_cons; right | done]. }
    destruct (String.eqb_spec c "") as [-> | Hc]; [by apply Hrec |].
    simpl.
    destruct (cmd_Output sys (versionProbe c) (os w)).1 as [out [e|]] eqn:Hout;
      [by apply Hrec |].
    destruct out as [|b0 out]; [done |].
    destruct (Ascii.eqb_spec b0 "v") as [-> | Hv]; [| by apply Hrec].
    intros [= <- <-]. exists c, out, (os w).
    split; [by apply elem_of_cons; left | done].
Qed.

Lemma nodeLoop_exhausted nodeCmds builder w e w1 :
  nodeLoop sys nodeCmds builder w = (Ret (inl e), w1) → e = errNoNode.
Proof.
  revert w. induction nodeCmds as [|c rest IH]; intros w.
  - simpl. go_unfold. by intros [= <- _].
  - rewrite nodeLoop_cons. destruct (String.eqb c ""); [by apply IH |]. simpl.
    destruct (cmd_Output sys (versionProbe c) (os w)).1 as [out [e'|]]; [by apply IH |].
    destruct out as [|b0 out]; [done |].
    destruct (Ascii.eqb b0 "v"); [done | by apply IH].
Qed.

(** *** Initialize *)

(** X1: whatever its outcome, a panic included, Initialize only adds
    version queries to the subprocesses asked for: each has a non-empty
    program name, the single argument [-v] and no working directory, and
    there are at most five of them. *)
Theorem Initialize_only_probes builder w :
  ∃ tr, invoked (Initialize sys builder w).2 = invoked w ++ tr
        ∧ Forall isVersionProbe tr ∧ length tr ≤ 5.
Proof.
  rewrite Initialize_loop.
  destruct (nodeLoop_trace (nodeCandidates sys (os w)) builder w) as (tr & Htr & Hall & Hlen).
  simpl in Hlen.
  destruct (nodeLoop sys _ builder w) as [[[e|b1]|msg] w1]; simpl in Htr.
  - exists tr. auto with lia.
  - rewrite managers_eq. simpl. rewrite Htr, <- !app_assoc. simpl.
    eexists. split; [reflexivity |]. split.
    + apply Forall_app. split; [done |].
      repeat constructor; by apply managerCmd_nonempty.
    + rewrite length_app. simpl. lia.
  - exists tr. auto with lia.
Qed.

(** X2: when Initialize returns no error, the runtime command is one of the
    candidates and is not empty, both package manager commands are not
    empty, and at least one package manager has a version. *)
Theorem Initialize_success_postcondition builder w b' w' :
  Initialize sys builder w = (Ret (b', None), w') →
  NodeCmd b' ∈ nodeCandidates sys (os w) ∧ NodeCmd b' ≠ ""
  ∧ NpmCmd b' ≠ "" ∧ YarnCmd b' ≠ ""
  ∧ (NpmVersion b' ≠ "" ∨ YarnVersion b' ≠ "").
Proof.
  rewrite Initialize_loop.
  destruct (nodeLoop sys _ builder w) as [[[e|b1]|msg] w1] eqn:Hloop; try discriminate.
  apply nodeLoop_break in Hloop as (c & out & s0 & Hin & Hc & _ & ->).
  rewrite managers_eq. simpl.
  repeat match goal with
         | |- context [String.eqb ?x ""] => destruct (String.eqb x "") eqn:?
         end; simpl; try discriminate; intros [= <- _]; simpl;
    (split; [done |]); (split; [done |]);
    (split; [by apply managerCmd_nonempty |]); (split; [by apply managerCmd_nonempty |]);
    first [left; apply String.eqb_neq; assumption | right; apply String.eqb_neq; assumption].
Qed.

(** X3: Initialize returns one of two errors.  With the runtime error the
    builder is left as it was; with the package manager error the runtime
    fields have been set all the same and both versions are empty. *)
Theorem Initialize_error_cases builder w b' e w' :
  Initialize sys builder w = (Ret (b', Some e), w') →
  (e = errNoNode ∧ b' = builder)
  ∨ (e = errNoManager ∧ NodeCmd b' ≠ "" ∧ NpmVersion b' = "" ∧ YarnVersion b' = "").
Proof.
  rewrite Initialize_loop.
  destruct (nodeLoop sys _ builder w) as [[[e1|b1]|msg] w1] eqn:Hloop; try discriminate.
  - intros [= <- <- _]. left. split; [| done]. by eapply nodeLoop_exhausted.
  - apply nodeLoop_break in Hloop as (c & out & s0 & Hin & Hc & _ & ->).
    rewrite managers_eq. simpl.
    repeat match goal with
           | |- context [String.eqb ?x ""] => destruct (String.eqb_spec x "")
           end; simpl; try discriminate.
    intros [= <- <- _]. right. simpl. done.
Qed.

(** X4: when the loop reaches a non-empty candidate whose query, in the
    state the loop is in, returns no error and an output beginning with
    [v], Initialize does not panic: the slice [1:] is in range.  It returns
    with that candidate as the runtime command and with, as the version,
    that output without its leading [v] and without surrounding white
    space. *)
Theorem Initialize_records_trimmed_version builder w pre c post e w1 out s' :
  nodeCandidates sys (os w) = pre ++ c :: post →
  nodeLoop sys pre builder w = (Ret (inl e), w1) →
  c ≠ "" →
  cmd_Output sys (versionProbe c) (os w1) = ((String "v" out, None), s') →
  ∃ b' r w', Initialize sys builder w = (Ret (b', r), w')
             ∧ NodeCmd b' = c
             ∧ String "v" (NodeVersion b') = strings_TrimSpace (String "v" out).
Proof.
  intros Hc Hpre Hne Hout.
  rewrite Initialize_loop, Hc, (nodeLoop_app sys _ _ _ _ _ _ Hpre), nodeLoop_cons.
  apply String.eqb_neq in Hne. rewrite Hne, Hout. cbn [fst snd Ascii.eqb Bool.eqb].
  match goal with
  | |- ∃ b' r w', managers sys ?b ?w0 = _ ∧ _ =>
      destruct (managers_returns sys b w0) as (b' & r & w' & -> & Hcmd & Hver & _)
  end.
  exists b', r, w'. split; [done |]. split; [done |].
  rewrite Hver, TrimSpace_marker. done.
Qed.

(** The exit of the loop depends on the system state only, not on the
    subprocesses recorded so far nor on the builder it is given. *)
Lemma nodeLoop_rebuild nodeCmds builder b2 w w2 :
  os w2 = os w →
  (nodeLoop sys nodeCmds b2 w2).1 = rebuild b2 (nodeLoop sys nodeCmds builder w).1
  ∧ os (nodeLoop sys nodeCmds b2 w2).2 = os (nodeLoop sys nodeCmds builder w).2.
Proof.
  revert w w2. induction nodeCmds as [|c rest IH]; intros w w2 Hos.
  - simpl. go_unfold. done.
  - rewrite !nodeLoop_cons, Hos.
    destruct (String.eqb c ""); [by apply IH |]. simpl.
    destruct (cmd_Output sys (versionProbe c) (os w)) as [[out [e|]] s1]; simpl;
      [by apply IH |].
    destruct out as [|b0 out]; [done |].
    destruct (Ascii.eqb b0 "v"); [done | by apply IH].
Qed.

Lemma nodeLoop_pure_os nodeCmds builder w :
  probesPure sys → os (nodeLoop sys nodeCmds builder w).2 = os w.
Proof.
  intros Hpure. revert w. induction nodeCmds as [|c rest IH]; intros w; [done |].
  rewrite nodeLoop_cons. destruct (String.eqb c ""); [by apply IH |]. simpl.
  pose proof (Hpure c (os w)) as Hs.
  destruct (cmd_Output sys (versionProbe c) (os w)) as [[out [e|]] s1]; simpl in *; subst s1.
  - by rewrite IH.
  - destruct out as [|b0 out]; [done |].
    destruct (Ascii.eqb b0 "v"); [done | by rewrite IH].
Qed.

Lemma default_default {A : Type} (x : A) (o : option A) :
  default (default x o) o = default x o.
Proof. by destruct o. Qed.

(** Under such queries the part after the loop reproduces its own
    result. *)
Lemma managers_idempotent builder w b' r w' :
  probesPure sys →
  managers sys builder w = (Ret (b', r), w') →
  os w' = os w
  ∧ NodeCmd b' = NodeCmd builder ∧ NodeVersion b' = NodeVersion builder
  ∧ ∀ w2, os w2 = os w → ∃ w3, managers sys b' w2 = (Ret (b', r), w3) ∧ os w3 = os w.
Proof.
  intros Hpure. rewrite managers_eq. cbv zeta. rewrite !Hpure.
  intros [= <- <- <-]. split; [done |]. split; [done |]. split; [done |].
  intros w2 Hos2. rewrite managers_eq. cbv zeta. simpl.
  rewrite !Hpure, Hos2, !default_default. eexists. split; [reflexivity | done].
Qed.

Lemma nodeLoop_rerun nodeCmds builder w b1 w1 b2 w2 :
  nodeLoop sys nodeCmds builder w = (Ret (inr b1), w1) →
  os w2 = os w → NodeCmd b2 = NodeCmd b1 → NodeVersion b2 = NodeVersion b1 →
  ∃ w3, nodeLoop sys nodeCmds b2 w2 = (Ret (inr b2), w3) ∧ os w3 = os w1.
Proof.
  intros Hloop Hos Hc Hv.
  destruct (nodeLoop_rebuild nodeCmds builder b2 w w2 Hos) as [Hres Hos3].
  rewrite Hloop in Hres, Hos3.
  destruct (nodeLoop sys nodeCmds b2 w2) as [res w3]. exists w3.
  cbn [fst snd rebuild] in Hres, Hos3. subst res. split; [| done].
  rewrite <- Hc, <- Hv. by destruct b2.
Qed.

(** X5: on a system whose version queries change nothing, Initialize is
    idempotent: run again on the builder it produced, it returns the same
    builder and the same error. *)
Theorem Initialize_idempotent builder w b' r w' :
  probesPure sys →
  Initialize sys builder w = (Ret (b', r), w') →
  ∃ w'', Initialize sys b' w' = (Ret (b', r), w'') ∧ os w'' = os w.
Proof.
  intros Hpure. rewrite !Initialize_loop.
  pose proof (nodeLoop_pure_os (nodeCandidates sys (os w)) builder w Hpure) as Hos1.
  destruct (nodeLoop sys _ builder w) as [[[e|b1]|msg] w1] eqn:Hloop;
    cbn [snd] in Hos1; [| | discriminate].
  - intros [= <- <- <-]. rewrite Hos1.
    destruct (nodeLoop_rebuild (nodeCandidates sys (os w)) builder builder w w1 Hos1)
      as [Hres Hos2].
    rewrite Hloop in Hres, Hos2.
    destruct (nodeLoop sys _ builder w1) as [res w2].
    cbn [fst snd rebuild] in Hres, Hos2. subst res.
    exists w2. split; [done | congruence].
  - intros Hm.
    destruct (managers_idempotent _ _ _ _ _ Hpure Hm) as (Hos' & Hc & Hv & Hagain).
    assert (Hos2 : os w' = os w) by congruence. rewrite Hos2.
    destruct (nodeLoop_rerun _ _ _ _ _ b' w' Hloop Hos2 Hc Hv) as (w3 & -> & Hos3).
    destruct (Hagain w3 Hos3) as (w4 & -> & Hos4).
    exists w4. split; [done | congruence].
Qed.

(** X6: a package manager has a single candidate.  Once the runtime is
    resolved, on a system whose version queries change nothing, the command
    recorded for npm (for Yarn) is the override when it is set and the
    default name otherwise, whether or not its query succeeds; the version
    is what that one query yields and, when it yields none, the version the
    builder held before. *)
Theorem Initialize_manager_single_candidate builder w b' r w' :
  probesPure sys →
  Initialize sys builder w = (Ret (b', r), w') →
  r ≠ Some errNoNode →
  NpmCmd b' = managerCmd sys (os w) "NPM_BINARY" "npm"
  ∧ NpmVersion b'
    = default (NpmVersion builder) (versionOf (cmd_Output sys (versionProbe (NpmCmd b')) (os w)).1)
  ∧ YarnCmd b' = managerCmd sys (os w) "YARN_BINARY" "yarn"
  ∧ YarnVersion b'
    = default (YarnVersion builder)
        (versionOf (cmd_Output sys (versionProbe (YarnCmd b')) (os w)).1).
Proof.
  intros Hpure. rewrite Initialize_loop.
  pose proof (nodeLoop_pure_os (nodeCandidates sys (os w)) builder w Hpure) as Hos1.
  destruct (nodeLoop sys _ builder w) as [[[e|b1]|msg] w1] eqn:Hloop; simpl in Hos1;
    [| | discriminate].
  - intros [= <- <- _] Hr. apply nodeLoop_exhausted in Hloop as ->. done.
  - apply nodeLoop_break in Hloop as (c & out & s0 & _ & _ & _ & ->).
    rewrite managers_eq. simpl. rewrite !Hpure, Hos1. by intros [= <- _ _] _.
Qed.

(** *** Build *)

(** X7: without force Build returns no error exactly when the install it
    chose returned none: the Yarn install when yarn.lock exists, which also
    needs a non-empty Yarn command, and the npm install otherwise. *)
Theorem Build_success_iff builder m w :
  (∃ w', Build sys builder m false w = (Ret None, w'))
  ↔ if entryExists sys (os w) (filepath_Join sys [Dir m; "yarn.lock"])
    then YarnCmd builder ≠ "" ∧ (cmd_Output sys (yarnInstall builder m) (os w)).1.2 = None
    else (cmd_Output sys (npmInstall builder m) (os w)).1.2 = None.
Proof.
  unfold entryExists, Build, install. go_unfold.
  destruct (os_Stat sys _ (os w)) as [e|].
  - destruct (cmd_Output sys (npmInstall builder m) (os w)) as [[out [e'|]] s']; simpl.
    + split; [by intros [w' [=]] | done].
    + split; [done | eauto].
  - destruct (String.eqb_spec (YarnCmd builder) "") as [Hy | Hy].
    + split; [by intros [w' [=]] | by intros [? _]].
    + destruct (cmd_Output sys (yarnInstall builder m) (os w)) as [[out [e'|]] s']; simpl.
      * split; [by intros [w' [=]] | by intros [_ [=]]].
      * split; [done | eauto].
Qed.

(** X8: Build never panics, asks for at most two subprocesses (one when
    force is not set), and every one of them runs in the module's root
    directory. *)
Theorem Build_runs_in_module_dir builder m (force : bool) w :
  ∃ r w' tr, Build sys builder m force w = (Ret r, w')
             ∧ invoked w' = invoked w ++ tr
             ∧ Forall (λ cmd, cmd_Dir cmd = Dir m) tr
             ∧ length tr ≤ (if force then 2 else 1).
Proof.
  assert (Hinst : ∀ w0, ∃ r w' tr, install sys builder m w0 = (Ret r, w')
             ∧ invoked w' = invoked w0 ++ tr
             ∧ Forall (λ cmd, cmd_Dir cmd = Dir m) tr ∧ length tr ≤ 1).
  { intros w0. unfold install. go_unfold.
    destruct (os_Stat sys _ (os w0)) as [e0|].
    - destruct (cmd_Output sys (npmInstall builder m) (os w0)) as [[out e1] s'].
      eexists _, _, [_]. split; [reflexivity |]. simpl. by repeat constructor.
    - destruct (String.eqb (YarnCmd builder) "").
      + eexists _, _, []. split; [reflexivity |]. simpl.
        rewrite app_nil_r. by repeat constructor.
      + destruct (cmd_Output sys (yarnInstall builder m) (os w0)) as [[out e1] s'].
        eexists _, _, [_]. split; [reflexivity |]. simpl. by repeat constructor. }
  unfold Build. destruct force.
  - go_unfold. destruct (cmd_Output sys (rmCmd m) (os w)) as [[out [e|]] s1]; simpl.
    + eexists _, _, [_]. split; [reflexivity |]. simpl.
      split; [done |]. split; [by repeat constructor | lia].
    + destruct (Hinst (mkWorld s1 (invoked w ++ [rmCmd m]))) as (r & w' & tr & -> & Htr & Hall & Hlen).
      exists r, w', (rmCmd m :: tr). split; [done |]. rewrite Htr. simpl.
      rewrite <- app_assoc. split; [done |]. split; [by constructor | lia].
  - destruct (Hinst w) as (r & w' & tr & -> & Htr & Hall & Hlen).
    exists r, w', tr. auto.
Qed.

(** X9: with a builder that Initialize returned without error, an unforced
    Build always asks for exactly one install, the Yarn or the npm one, under
    a non-empty program name, and returns the error of that subprocess. *)
Theorem Build_after_Initialize_one_install builder w b' w' m w2 :
  Initialize sys builder w = (Ret (b', None), w') →
  ∃ cmd, (cmd = yarnInstall b' m ∨ cmd = npmInstall b' m)
         ∧ cmd_Path cmd ≠ ""
         ∧ Build sys b' m false w2
           = (Ret (cmd_Output sys cmd (os w2)).1.2,
              mkWorld (cmd_Output sys cmd (os w2)).2 (invoked w2 ++ [cmd])).
Proof.
  intros [Hn Hy]%Initialize_commands_nonempty.
  unfold Build, install. go_unfold.
  destruct (os_Stat sys _ (os w2)) as [e0|].
  - exists (npmInstall b' m). split; [by right |]. split; [done |].
    by destruct (cmd_Output sys (npmInstall b' m) (os w2)) as [[out e1] s'].
  - exists (yarnInstall b' m). split; [by left |]. split; [done |].
    apply String.eqb_neq in Hy. rewrite Hy.
    by destruct (cmd_Output sys (yarnInstall b' m) (os w2)) as [[out e1] s'].
Qed.

(** *** The goroutines of Analyze, step by step *)

Lemma step_unfold s h index :
  step sys s h index =
    match goroutines h !! index with
    | Some (Spawned modulePath) =>
      match ioutil_ReadFile sys modulePath s with
      | (dependencyManifest, None) =>
        mkPool (<[index := Read dependencyManifest]> (goroutines h)) (dependencies h)
      | (_, Some _) =>
        mkPool (<[index := Finished]> (goroutines h)) (dependencies h)
      end
    | Some (Read dependencyManifest) =>
      mkPool (<[index := Finished]> (goroutines h))
             (alter (λ v, (json_Unmarshal sys dependencyManifest v).1) index (dependencies h))
    | Some Finished | None => h
    end.
Proof. reflexivity. Qed.

(** A goroutine touches its own entry and its own slot only. *)
Lemma step_other s h i j :
  i ≠ j →
  goroutines (step sys s h i) !! j = goroutines h !! j
  ∧ dependencies (step sys s h i) !! j = dependencies h !! j.
Proof.
  intros Hne. rewrite step_unfold.
  destruct (goroutines h !! i) as [[p|data|]|]; [| |done|done].
  - destruct (ioutil_ReadFile sys p s) as [data [e|]]; simpl;
      by rewrite list_lookup_insert_ne.
  - simpl. by rewrite list_lookup_insert_ne, list_lookup_alter_ne.
Qed.

(** Steps of two different goroutines commute. *)
Lemma step_comm s h i j :
  i ≠ j → step sys s (step sys s h i) j = step sys s (step sys s h j) i.
Proof.
  intros Hne. assert (Hne' : j ≠ i) by done.
  rewrite (step_unfold s (step sys s h i) j), (step_unfold s (step sys s h j) i).
  rewrite (proj1 (step_other s h i j Hne)), (proj1 (step_other s h j i Hne')).
  destruct (goroutines h !! i) as [gi|] eqn:Hi; destruct (goroutines h !! j) as [gj|] eqn:Hj;
    rewrite !(step_unfold s h), ?Hi, ?Hj;
    try destruct gi as [pi|di|]; try destruct gj as [pj|dj|];
    repeat match goal with
           | |- context [ioutil_ReadFile sys ?p s] =>
               destruct (ioutil_ReadFile sys p s) as [? [?|]]
           end;
    simpl; try reflexivity; f_equal;
    first [ by apply list_insert_insert_ne
          | by apply list_alter_alter_ne
          | reflexivity ].
Qed.

(** The pool a schedule leads to depends on how many steps each goroutine
    took, not on their order. *)
Lemma run_permutation s schedule1 schedule2 h :
  schedule1 ≡ₚ schedule2 → run sys s schedule1 h = run sys s schedule2 h.
Proof.
  unfold run. intros Hperm. revert h.
  induction Hperm as [|i l1 l2 _ IH|i j l|l1 l2 l3 _ IH1 _ IH2]; intros h; simpl.
  - done.
  - apply IH.
  - destruct (decide (i = j)) as [-> | Hne]; [done |].
    f_equal. apply step_comm. done.
  - by rewrite IH1.
Qed.

Lemma step_waited s h i : waited h = true → step sys s h i = h.
Proof.
  unfold waited. rewrite forallb_forall. intros Hall. rewrite step_unfold.
  destruct (goroutines h !! i) as [g|] eqn:Hi; [| done].
  assert (Hfin : is_Finished g = true).
  { apply Hall, list_elem_of_In. by eapply list_elem_of_lookup_2. }
  by destruct g.
Qed.

Lemma run_waited s schedule h : waited h = true → run sys s schedule h = h.
Proof.
  unfold run. induction schedule as [|i schedule IH]; intros Hw; simpl; [done |].
  rewrite step_waited by done. by apply IH.
Qed.

Lemma stepsNeededAt_step_same s h i :
  stepsNeededAt sys s (step sys s h i) i = stepsNeededAt sys s h i - 1.
Proof.
  unfold stepsNeededAt. rewrite step_unfold.
  destruct (goroutines h !! i) as [g|] eqn:Hi; simpl; [| by rewrite Hi].
  assert (Hlt : i < length (goroutines h)) by (by eapply lookup_lt_Some).
  destruct g as [p|data|]; simpl.
  - destruct (ioutil_ReadFile sys p s) as [data [e|]]; simpl;
      by rewrite list_lookup_insert_eq.
  - by rewrite list_lookup_insert_eq.
  - by rewrite Hi.
Qed.

Lemma stepsNeededAt_step_other s h i j :
  i ≠ j → stepsNeededAt sys s (step sys s h i) j = stepsNeededAt sys s h j.
Proof.
  intros Hne. unfold stepsNeededAt. by rewrite (proj1 (step_other s h i j Hne)).
Qed.

Lemma stepsNeededAt_run s schedule h j :
  stepsNeededAt sys s (run sys s schedule h) j
  = stepsNeededAt sys s h j - count_occ Nat.eq_dec schedule j.
Proof.
  unfold run. revert h.
  induction schedule as [|i schedule IH]; intros h; simpl; [lia |].
  rewrite IH. destruct (Nat.eq_dec i j) as [-> | Hne].
  - rewrite stepsNeededAt_step_same. lia.
  - by rewrite stepsNeededAt_step_other.
Qed.

Lemma waited_stepsNeeded s h :
  waited h = true ↔ ∀ i, stepsNeededAt sys s h i = 0.
Proof.
  unfold waited, stepsNeededAt. rewrite forallb_forall. split.
  - intros Hall i. destruct (goroutines h !! i) as [g|] eqn:Hi; simpl; [| done].
    assert (Hfin : is_Finished g = true).
    { apply Hall, list_elem_of_In. by eapply list_elem_of_lookup_2. }
    by destruct g.
  - intros Hzero g [i Hi]%list_elem_of_In%list_elem_of_lookup.
    specialize (Hzero i). rewrite Hi in Hzero. simpl in Hzero.
    destruct g as [p|data|]; simpl in *; [| done | done].
    by destruct ((ioutil_ReadFile sys p s).2).
Qed.

(** *** Analyze and its schedules *)

(** X10: two schedules that give every goroutine the same number of steps,
    in whatever order, give the same outcome of Analyze, be it a result or
    a call still waiting at the barrier. *)
Theorem Analyze_permutation builder m (flag : bool) schedule1 schedule2 w :
  schedule1 ≡ₚ schedule2 →
  Analyze sys builder m flag schedule1 w = Analyze sys builder m flag schedule2 w.
Proof.
  intros Hperm.
  destruct (doublestar_Glob sys (globPattern sys m) (os w)) as [ps [e|]] eqn:Hg.
  - by rewrite !(Analyze_glob_failed sys _ _ _ _ _ _ _ Hg).
  - by rewrite !(Analyze_glob_ok sys _ _ _ _ _ _ Hg), (run_permutation _ _ _ _ Hperm).
Qed.

(** X11: once Analyze has passed the barrier, further steps of the
    schedule change nothing: no goroutine writes after its [wg.Done()]. *)
Theorem Analyze_extra_steps_harmless builder m (flag : bool) schedule w r w' more :
  Analyze sys builder m flag schedule w = (Ret (Some r), w') →
  Analyze sys builder m flag (schedule ++ more) w = (Ret (Some r), w').
Proof.
  destruct (doublestar_Glob sys (globPattern sys m) (os w)) as [ps [e|]] eqn:Hg.
  - by rewrite !(Analyze_glob_failed sys _ _ _ _ _ _ _ Hg).
  - rewrite !(Analyze_glob_ok sys _ _ _ _ _ _ Hg).
    destruct (waited (run sys (os w) schedule (spawn ps))) eqn:Hw; [| discriminate].
    intros <-. unfold run at 1. rewrite foldl_app.
    fold (run sys (os w) schedule (spawn ps)).
    fold (run sys (os w) more (run sys (os w) schedule (spawn ps))).
    by rewrite (run_waited _ _ _ Hw), Hw.
Qed.

(** X12: Analyze passes the barrier exactly when the schedule gives every
    goroutine the steps it needs: two when its manifest can be read, one
    when the read fails. *)
Theorem Analyze_passes_barrier_iff builder m (flag : bool) schedule w nodeModules :
  doublestar_Glob sys (globPattern sys m) (os w) = (nodeModules, None) →
  (∃ r w', Analyze sys builder m flag schedule w = (Ret (Some r), w'))
  ↔ ∀ i p, nodeModules !! i = Some p →
           stepsNeeded sys (os w) (Spawned p) ≤ count_occ Nat.eq_dec schedule i.
Proof.
  intros Hg. rewrite (Analyze_glob_ok sys _ _ _ _ _ _ Hg).
  assert (Hinit : ∀ i, stepsNeededAt sys (os w) (spawn nodeModules) i
                       = from_option (λ p, stepsNeeded sys (os w) (Spawned p)) 0
                                     (nodeModules !! i)).
  { intros i. unfold stepsNeededAt, spawn. simpl. rewrite list_lookup_fmap.
    by destruct (nodeModules !! i). }
  destruct (waited (run sys (os w) schedule (spawn nodeModules))) eqn:Hw.
  - split; [| eauto]. intros _ i p Hp.
    pose proof (proj1 (waited_stepsNeeded (os w) _) Hw i) as Hz.
    rewrite stepsNeededAt_run, Hinit, Hp in Hz. simpl in *. lia.
  - split; [by intros (r & w' & [=]) |]. intros Hall. exfalso.
    assert (Hw' : waited (run sys (os w) schedule (spawn nodeModules)) = true);
      [| congruence].
    apply (proj2 (waited_stepsNeeded (os w) _)). intros i.
    rewrite stepsNeededAt_run, Hinit.
    destruct (nodeModules !! i) as [p|] eqn:Hp; simpl; [| done].
    specialize (Hall i p Hp). simpl in Hall. lia.
Qed.

(** *** What Analyze returns, seen as Dependencies *)


End Further.

(** ** The further properties on the concrete system *)

Lemma Initialize_success_postcondition_witness :
  Initialize Host.sys NodeJSBuilder_zero (Host.start Host.npmOnly)
  = (Ret (mkNodeJSBuilder "node" "8.11.1" "npm" "5.6.0" "yarn" "", None),
     mkWorld Host.npmOnly [versionProbe "node"; versionProbe "npm"; versionProbe "yarn"])
  ∧ NodeCmd (mkNodeJSBuilder "node" "8.11.1" "npm" "5.6.0" "yarn" "")
    ∈ nodeCandidates Host.sys (os (Host.start Host.npmOnly)).
Proof.
  split; [vm_compute; reflexivity |].
  apply (Initialize_success_postcondition Host.sys NodeJSBuilder_zero
           (Host.start Host.npmOnly)
           (mkNodeJSBuilder "node" "8.11.1" "npm" "5.6.0" "yarn" "")
           (mkWorld Host.npmOnly
              [versionProbe "node"; versionProbe "npm"; versionProbe "yarn"])).
  vm_compute; reflexivity.
Defined.

Lemma Initialize_error_cases_witness :
  Initialize Host.sys NodeJSBuilder_zero (Host.start (Host.mkState [] [] Host.project))
  = (Ret (NodeJSBuilder_zero, Some errNoNode),
     mkWorld (Host.mkState [] [] Host.project) [versionProbe "node"; versionProbe "nodejs"])
  ∧ ((errNoNode = errNoNode ∧ NodeJSBuilder_zero = NodeJSBuilder_zero)
     ∨ (errNoNode = errNoManager ∧ NodeCmd NodeJSBuilder_zero ≠ ""
        ∧ NpmVersion NodeJSBuilder_zero = "" ∧ YarnVersion NodeJSBuilder_zero = "")).
Proof.
  split; [vm_compute; reflexivity |].
  apply (Initialize_error_cases Host.sys NodeJSBuilder_zero
           (Host.start (Host.mkState [] [] Host.project)) NodeJSBuilder_zero errNoNode
           (mkWorld (Host.mkState [] [] Host.project)
              [versionProbe "node"; versionProbe "nodejs"])).
  vm_compute; reflexivity.
Defined.

Lemma Initialize_records_trimmed_version_witness :
  nodeCandidates Host.sys (os (Host.start Host.npmOnly)) = [""] ++ "node" :: ["nodejs"]
  ∧ nodeLoop Host.sys [""] NodeJSBuilder_zero (Host.start Host.npmOnly)
    = (Ret (inl errNoNode), Host.start Host.npmOnly)
  ∧ "node" ≠ ""
  ∧ cmd_Output Host.sys (versionProbe "node") (os (Host.start Host.npmOnly))
    = ((String "v" ("8.11.1" ++ Host.newline)%string, None), Host.npmOnly)
  ∧ ∃ b' r w', Initialize Host.sys NodeJSBuilder_zero (Host.start Host.npmOnly)
               = (Ret (b', r), w')
               ∧ NodeCmd b' = "node"
               ∧ String "v" (NodeVersion b')
                 = strings_TrimSpace (String "v" ("8.11.1" ++ Host.newline)%string).
Proof.
  split; [reflexivity |]. split; [reflexivity |]. split; [discriminate |].
  split; [reflexivity |].
  apply (Initialize_records_trimmed_version Host.sys NodeJSBuilder_zero
           (Host.start Host.npmOnly) [""] "node" ["nodejs"] errNoNode
           (Host.start Host.npmOnly) ("8.11.1" ++ Host.newline)%string Host.npmOnly).
  - reflexivity.
  - reflexivity.
  - discriminate.
  - reflexivity.
Defined.

Lemma Initialize_idempotent_witness :
  probesPure Host.sys
  ∧ Initialize Host.sys NodeJSBuilder_zero (Host.start Host.npmOnly)
    = (Ret (mkNodeJSBuilder "node" "8.11.1" "npm" "5.6.0" "yarn" "", None),
       mkWorld Host.npmOnly [versionProbe "node"; versionProbe "npm"; versionProbe "yarn"])
  ∧ ∃ w'',
      Initialize Host.sys (mkNodeJSBuilder "node" "8.11.1" "npm" "5.6.0" "yarn" "")
        (mkWorld Host.npmOnly [versionProbe "node"; versionProbe "npm"; versionProbe "yarn"])
      = (Ret (mkNodeJSBuilder "node" "8.11.1" "npm" "5.6.0" "yarn" "", None), w'')
      ∧ os w'' = os (Host.start Host.npmOnly).
Proof.
  assert (Hpure : probesPure Host.sys).
  { intros c s. simpl. unfold Host.Output. simpl.
    destruct (Host.assoc c (Host.programs s)); reflexivity. }
  split; [exact Hpure |]. split; [vm_compute; reflexivity |].
  apply (Initialize_idempotent Host.sys NodeJSBuilder_zero (Host.start Host.npmOnly)
           (mkNodeJSBuilder "node" "8.11.1" "npm" "5.6.0" "yarn" "") None
           (mkWorld Host.npmOnly
              [versionProbe "node"; versionProbe "npm"; versionProbe "yarn"]) Hpure).
  vm_compute; reflexivity.
Defined.

Lemma Initialize_manager_single_candidate_witness :
  probesPure Host.sys
  ∧ Initialize Host.sys NodeJSBuilder_zero (Host.start Host.overridden)
    = (Ret (mkNodeJSBuilder "/opt/node/bin/node" "10.0.0" "npm" "" "yarn" "1.22.0", None),
       mkWorld Host.overridden
         [versionProbe "/opt/node/bin/node"; versionProbe "npm"; versionProbe "yarn"])
  ∧ NpmCmd (mkNodeJSBuilder "/opt/node/bin/node" "10.0.0" "npm" "" "yarn" "1.22.0")
    = managerCmd Host.sys (os (Host.start Host.overridden)) "NPM_BINARY" "npm".
Proof.
  assert (Hpure : probesPure Host.sys).
  { intros c s. simpl. unfold Host.Output. simpl.
    destruct (Host.assoc c (Host.programs s)); reflexivity. }
  split; [exact Hpure |]. split; [vm_compute; reflexivity |].
  apply (Initialize_manager_single_candidate Host.sys NodeJSBuilder_zero
           (Host.start Host.overridden)
           (mkNodeJSBuilder "/opt/node/bin/node" "10.0.0" "npm" "" "yarn" "1.22.0") None
           (mkWorld Host.overridden
              [versionProbe "/opt/node/bin/node"; versionProbe "npm"; versionProbe "yarn"])
           Hpure).
  - vm_compute; reflexivity.
  - discriminate.
Defined.

Lemma Build_after_Initialize_one_install_witness :
  Initialize Host.sys NodeJSBuilder_zero (Host.start Host.npmOnly)
  = (Ret (mkNodeJSBuilder "node" "8.11.1" "npm" "5.6.0" "yarn" "", None),
     mkWorld Host.npmOnly [versionProbe "node"; versionProbe "npm"; versionProbe "yarn"])
  ∧ ∃ cmd,
      (cmd = yarnInstall (mkNodeJSBuilder "node" "8.11.1" "npm" "5.6.0" "yarn" "")
               (mkModule "lib")
       ∨ cmd = npmInstall (mkNodeJSBuilder "node" "8.11.1" "npm" "5.6.0" "yarn" "")
                 (mkModule "lib"))
      ∧ cmd_Path cmd ≠ ""
      ∧ Build Host.sys (mkNodeJSBuilder "node" "8.11.1" "npm" "5.6.0" "yarn" "")
          (mkModule "lib") false (Host.start Host.npmOnly)
        = (Ret (cmd_Output Host.sys cmd (os (Host.start Host.npmOnly))).1.2,
           mkWorld (cmd_Output Host.sys cmd (os (Host.start Host.npmOnly))).2
                   (invoked (Host.start Host.npmOnly) ++ [cmd])).
Proof.
  split; [vm_compute; reflexivity |].
  apply (Build_after_Initialize_one_install Host.sys NodeJSBuilder_zero
           (Host.start Host.npmOnly)
           (mkNodeJSBuilder "node" "8.11.1" "npm" "5.6.0" "yarn" "")
           (mkWorld Host.npmOnly
              [versionProbe "node"; versionProbe "npm"; versionProbe "yarn"])
           (mkModule "lib") (Host.start Host.npmOnly)).
  vm_compute; reflexivity.
Defined.

Lemma Analyze_permutation_witness :
  [0; 1; 0; 1] ≡ₚ [1; 0; 0; 1]
  ∧ Analyze Host.sys NodeJSBuilder_zero Host.app false [0; 1; 0; 1] (Host.start Host.npmOnly)
    = Analyze Host.sys NodeJSBuilder_zero Host.app false [1; 0; 0; 1] (Host.start Host.npmOnly).
Proof.
  split; [apply perm_swap |].
  apply (Analyze_permutation Host.sys NodeJSBuilder_zero Host.app false
           [0; 1; 0; 1] [1; 0; 0; 1] (Host.start Host.npmOnly)).
  apply perm_swap.
Defined.

Lemma Analyze_extra_steps_harmless_witness :
  Analyze Host.sys NodeJSBuilder_zero Host.app false [0; 1; 0; 1] (Host.start Host.npmOnly)
  = (Ret (Some ([mkNodeModule "lodash" "4.17.0"; NodeModule_zero], None)),
     Host.start Host.npmOnly)
  ∧ Analyze Host.sys NodeJSBuilder_zero Host.app false ([0; 1; 0; 1] ++ [1; 7])
      (Host.start Host.npmOnly)
    = (Ret (Some ([mkNodeModule "lodash" "4.17.0"; NodeModule_zero], None)),
       Host.start Host.npmOnly).
Proof.
  split; [vm_compute; reflexivity |].
  apply (Analyze_extra_steps_harmless Host.sys NodeJSBuilder_zero Host.app false [0; 1; 0; 1]
           (Host.start Host.npmOnly)
           ([mkNodeModule "lodash" "4.17.0"; NodeModule_zero], None)
           (Host.start Host.npmOnly) [1; 7]).
  vm_compute; reflexivity.
Defined.

Lemma Analyze_passes_barrier_iff_witness :
  doublestar_Glob Host.sys (globPattern Host.sys Host.app) (os (Host.start Host.npmOnly))
  = (["app/node_modules/lodash/package.json"; "app/node_modules/left-pad/package.json"], None)
  ∧ ((∃ r w', Analyze Host.sys NodeJSBuilder_zero Host.app false [0; 0; 1]
                (Host.start Host.npmOnly) = (Ret (Some r), w'))
     ↔ ∀ i p, ["app/node_modules/lodash/package.json";
               "app/node_modules/left-pad/package.json"] !! i = Some p →
              stepsNeeded Host.sys (os (Host.start Host.npmOnly)) (Spawned p)
              ≤ count_occ Nat.eq_dec [0; 0; 1] i).
Proof.
  split; [vm_compute; reflexivity |].
  apply (Analyze_passes_barrier_iff Host.sys NodeJSBuilder_zero Host.app false [0; 0; 1]
           (Host.start Host.npmOnly)
           ["app/node_modules/lodash/package.json"; "app/node_modules/left-pad/package.json"]).
  vm_compute; reflexivity.
Defined.

